(** * SauceDemo intermediate Cypress suite: command queues and their meaning

    The repository is a Cypress spec file ([intermediate-test.cy.js]) and one
    custom command ([commands.js]).  Every [cy.*] call appends a command to
    the runner's queue; the runner later drains the queue against the browser.
    The development below embeds
    - the queue each callback of the two files builds (a writer monad [Cy]),
    - the Mocha registration calls [describe], [beforeEach], [it] and the
      array's [forEach],
    - an interpreter of queues over an abstract browser, and the runner loop
      hook-then-body over the registered tests,
    and then states the properties of the suite against these definitions. *)

From Stdlib Require Import String Ascii List Bool Arith Lia.
From Stdlib Require Import DecimalString.
Import ListNotations.
Open Scope string_scope.
Open Scope list_scope.

(** ** Strings *)

(** The double-quote character, for selectors such as
    [h3[data-test="error"]] that carry one inside a single-quoted literal. *)
Definition dq : string := String "034"%char EmptyString.

(** [String.prototype.includes]: does [needle] occur in [hay]? *)
Fixpoint includes (needle hay : string) : bool :=
  if prefix needle hay then true
  else match hay with
       | EmptyString => false
       | String _ rest => includes needle rest
       end.

(** ** Cypress commands *)

(** The chainers passed to [.should] / [.and] in the spec file. *)
Inductive chainer : Type :=
| BeVisible                 (* 'be.visible' *)
| Contain (txt : string)    (* 'contain', txt *)
| Include (txt : string)    (* 'include', txt *)
| HaveLength (n : nat)      (* 'have.length', n *)
| HaveText (txt : string)   (* 'have.text', txt *)
| NotExist.                 (* 'not.exist' *)

(** One entry of the command queue.  [Get], [Visit], [Url] and the two
    clearing commands start a chain from [cy]; [Find], [Type], [Click],
    [Should] and [And] continue the chain they are written on. *)
Inductive command : Type :=
| Visit (url : string)
| ClearAllCookies
| ClearAllLocalStorage
| Get (selector : string)
| Find (selector : string)
| Type_ (text : string)
| Click
| Url
| Should (c : chainer)
| And (c : chainer).

(** A callback that talks to [cy]: the value it returns and the commands it
    enqueued, in order. *)
Definition Cy (A : Type) : Type := (A * list command)%type.

Definition cy_ret {A : Type} (a : A) : Cy A := (a, []).

Definition cy_bind {A B : Type} (m : Cy A) (k : A -> Cy B) : Cy B :=
  let (a, q1) := m in
  let (b, q2) := k a in
  (b, q1 ++ q2).

Definition enqueue (c : command) : Cy unit := (tt, [c]).

Definition returned {A : Type} (m : Cy A) : A := fst m.
Definition queue {A : Type} (m : Cy A) : list command := snd m.

Notation "m ;; k" := (cy_bind m (fun _ => k))
  (at level 61, right associativity).

Definition cy_visit (url : string) : Cy unit := enqueue (Visit url).
Definition cy_clearAllCookies : Cy unit := enqueue ClearAllCookies.
Definition cy_clearAllLocalStorage : Cy unit := enqueue ClearAllLocalStorage.
Definition cy_get (selector : string) : Cy unit := enqueue (Get selector).
Definition cy_url : Cy unit := enqueue Url.
Definition find (selector : string) : Cy unit := enqueue (Find selector).
Definition type (text : string) : Cy unit := enqueue (Type_ text).
Definition click : Cy unit := enqueue Click.
Definition should (c : chainer) : Cy unit := enqueue (Should c).
Definition and_ (c : chainer) : Cy unit := enqueue (And c).

(** Is the command an assertion ([.should] or its alias [.and])? *)
Definition is_assertion (c : command) : bool :=
  match c with
  | Should _ | And _ => true
  | _ => false
  end.

(** Does the command clear browser-side state? *)
Definition is_clear (c : command) : bool :=
  match c with
  | ClearAllCookies | ClearAllLocalStorage => true
  | _ => false
  end.


Fixpoint count (p : command -> bool) (q : list command) : nat :=
  match q with
  | [] => 0
  | c :: q' => (if p c then 1 else 0) + count p q'
  end.

(** ** commands.js *)

Definition root : string := "https://www.saucedemo.com/".

(** [Cypress.Commands.add('login', (username, password) => { ... })].
    The callback has a block body without [return]. *)
Definition login (username password : string) : Cy unit :=
  cy_visit "https://www.saucedemo.com/" ;;
  cy_get "#user-name" ;; type username ;;
  cy_get "#password" ;; type password ;;
  cy_get "#login-button" ;; click.

(** [cy.login(u, p)]: the runner calls the registered callback and runs what
    it enqueues in place, before the next command of the caller. *)
Definition cy_login (username password : string) : Cy unit :=
  login username password.

(** ** Mocha registration *)

Record test : Type := mkTest {
  title : string;
  fn : Cy unit
}.

Record suite : Type := mkSuite {
  suite_title : string;
  hooks : list (Cy unit);     (* beforeEach callbacks, in registration order *)
  tests : list test           (* it(...) cases, in registration order *)
}.

Definition beforeEach (hook : Cy unit) (s : suite) : suite :=
  mkSuite (suite_title s) (hooks s ++ [hook]) (tests s).

Definition it (name : string) (body : Cy unit) (s : suite) : suite :=
  mkSuite (suite_title s) (hooks s) (tests s ++ [mkTest name body]).

(** [Array.prototype.forEach]: the callback is applied to the elements from
    index 0 upwards. *)
Definition forEach {A : Type} (xs : list A) (f : A -> suite -> suite)
  (s : suite) : suite :=
  fold_left (fun acc x => f x acc) xs s.

(** [describe(name, () => { stmts })]. *)
Definition describe (name : string) (stmts : list (suite -> suite)) : suite :=
  fold_left (fun acc stmt => stmt acc) stmts (mkSuite name [] []).

(** ** intermediate-test.cy.js *)

Definition users : list string :=
  ["standard_user"; "locked_out_user"; "problem_user"].

Definition error_selector : string :=
  "h3[data-test=" ++ dq ++ "error" ++ dq ++ "]".

(** Body of the test generated for [user]. *)
Definition login_attempt (user : string) : Cy unit :=
  cy_login user "secret_sauce" ;;
  if String.eqb user "locked_out_user" then
    cy_get error_selector ;; should BeVisible ;; and_ (Contain "locked out")
  else
    cy_url ;; should (Include "inventory").

Definition login_title (user : string) : string :=
  "should handle login attempt for " ++ user.

Definition login_tests : suite :=
  describe "Data-Driven Login Tests"
    [ beforeEach
        (cy_visit "https://www.saucedemo.com/" ;;
         cy_clearAllCookies ;;
         cy_clearAllLocalStorage);
      forEach users (fun user => it (login_title user) (login_attempt user)) ].

Definition product_tests : suite :=
  describe "Product Tests"
    [ beforeEach
        (cy_visit "https://www.saucedemo.com/" ;;
         cy_clearAllCookies ;;
         cy_clearAllLocalStorage ;;
         cy_login "standard_user" "secret_sauce");
      it "should display all 6 products on inventory page"
        (cy_get ".inventory_list" ;; find ".inventory_item" ;;
         should (HaveLength 6));
      it "should add product to cart and update badge"
        (cy_get "#add-to-cart-sauce-labs-backpack" ;; click ;;
         cy_get ".shopping_cart_link" ;; should (HaveText "1")) ].

Definition shopping_cart_tests : suite :=
  describe "Shopping Cart Tests"
    [ beforeEach
        (cy_visit "https://www.saucedemo.com/" ;;
         cy_login "standard_user" "secret_sauce" ;;
         cy_get "#add-to-cart-sauce-labs-backpack" ;; click ;;
         cy_get ".shopping_cart_link" ;; click);
      it "should display the added product in cart"
        (cy_get ".cart_item" ;; should (HaveLength 1));
      it "should remove product from cart successfully"
        (cy_get "#remove-sauce-labs-backpack" ;; click ;;
         cy_get ".inventory_item_name" ;; should NotExist);
      it "should navigate to checkout page"
        (cy_get "#checkout" ;; click ;;
         cy_url ;; should (Include "checkout-step-one")) ].

(** The spec file: its three [describe] blocks in source order. *)
Definition spec_file : list suite :=
  [login_tests; product_tests; shopping_cart_tests].

(** Commands of the setup of a suite: all its [beforeEach] hooks in order. *)
Definition setup (s : suite) : list command :=
  flat_map (fun h => queue h) (hooks s).

(** Everything the runner executes for one test of a suite. *)
Definition scenario (s : suite) (t : test) : list command :=
  setup s ++ queue (fn t).

(** ** The browser, as the runner sees it

    The runner and the site under test are external.  A [Browser] gathers the
    operations the commands above need from them.  A state of the browser is
    the page shown together with whatever the browser keeps between pages
    (cookies, local storage); queries and assertions read the state the page
    settles in, which abstracts the runner's retry-until-timeout polling. *)
Record Browser : Type := mkBrowser {
  state : Type;
  element : Type;
  (* the state the runner's test isolation starts a test from:
     about:blank, no cookies, empty storage *)
  blank : state;
  (* cy.visit: None when the page does not load *)
  navigate : string -> state -> option state;
  clear_cookies : state -> state;
  clear_local_storage : state -> state;
  (* elements of the document matching a selector *)
  query : string -> state -> list element;
  (* descendants of the given elements matching a selector *)
  query_within : list element -> string -> state -> list element;
  (* .type(text) and .click() on the subject: None when the action fails *)
  type_into : list element -> string -> state -> option state;
  click_on : list element -> state -> option state;
  (* window.location.href *)
  location : state -> string;
  visible : list element -> state -> bool;
  text_of : list element -> state -> string
}.

Arguments navigate {_} _ _.
Arguments clear_cookies {_} _.
Arguments clear_local_storage {_} _.
Arguments query {_} _ _.
Arguments query_within {_} _ _ _.
Arguments type_into {_} _ _ _.
Arguments click_on {_} _ _.
Arguments location {_} _.
Arguments visible {_} _ _.
Arguments text_of {_} _ _.

(** What a command yields to the next command of its chain. *)
Inductive subject (B : Browser) : Type :=
| NoSubject
| Elements (els : list (element B))
| Text (s : string).

Arguments NoSubject {B}.
Arguments Elements {B} _.
Arguments Text {B} _.

(** The ways a command fails a scenario. *)
Inductive failure : Type :=
| AssertionFailed     (* an expectation is not met *)
| ElementNotFound     (* a selector matches nothing *)
| CommandFailed.      (* navigation or action error, or a misused subject *)

Inductive outcome : Type :=
| Passed
| Failed (f : failure).

Definition is_empty {A : Type} (l : list A) : bool :=
  match l with
  | [] => true
  | _ => false
  end.

(** A query waits for its element to exist unless the assertion chained
    right after it is a negated existence check. *)
Definition expects_absence (rest : list command) : bool :=
  match rest with
  | Should NotExist :: _ | And NotExist :: _ => true
  | _ => false
  end.

(** The check behind [.should(chainer)] on the current subject; [None] when
    the chainer does not apply to that kind of subject. *)
Definition holds {B : Browser} (c : chainer) (subj : subject B) (s : state B)
  : option bool :=
  match c, subj with
  | BeVisible, Elements els => Some (visible els s)
  | Contain txt, Elements els => Some (includes txt (text_of els s))
  | Contain txt, Text u => Some (includes txt u)
  | Include txt, Text u => Some (includes txt u)
  | HaveLength n, Elements els => Some (Nat.eqb (length els) n)
  | HaveText txt, Elements els => Some (String.eqb (text_of els s) txt)
  | NotExist, Elements els => Some (is_empty els)
  | _, _ => None
  end.

Definition assert {B : Browser} (c : chainer) (subj : subject B) (s : state B)
  : failure + (subject B * state B) :=
  match holds c subj s with
  | Some true => inr (subj, s)
  | Some false => inl AssertionFailed
  | None => inl CommandFailed
  end.

Definition found {B : Browser} (absent_ok : bool) (els : list (element B))
  (s : state B) : failure + (subject B * state B) :=
  if is_empty els && negb absent_ok then inl ElementNotFound
  else inr (Elements els, s).

(** One command.  [absent_ok] tells a query that the next command is a
    negated existence check. *)
Definition step {B : Browser} (c : command) (absent_ok : bool)
  (subj : subject B) (s : state B) : failure + (subject B * state B) :=
  match c with
  | Visit url =>
      match navigate url s with
      | Some s' => inr (NoSubject, s')
      | None => inl CommandFailed
      end
  | ClearAllCookies => inr (NoSubject, clear_cookies s)
  | ClearAllLocalStorage => inr (NoSubject, clear_local_storage s)
  | Get sel => found absent_ok (query sel s) s
  | Find sel =>
      match subj with
      | Elements els => found absent_ok (query_within els sel s) s
      | _ => inl CommandFailed
      end
  | Type_ txt =>
      match subj with
      | Elements els =>
          match type_into els txt s with
          | Some s' => inr (Elements els, s')
          | None => inl CommandFailed
          end
      | _ => inl CommandFailed
      end
  | Click =>
      match subj with
      | Elements els =>
          match click_on els s with
          | Some s' => inr (Elements els, s')
          | None => inl CommandFailed
          end
      | _ => inl CommandFailed
      end
  | Url => inr (Text (location s), s)
  | Should ch | And ch => assert ch subj s
  end.

(** Draining a queue: commands run in order until one fails.  The result is
    the outcome and the browser state the run stops in. *)
Fixpoint drain {B : Browser} (q : list command) (subj : subject B)
  (s : state B) : outcome * state B :=
  match q with
  | [] => (Passed, s)
  | c :: rest =>
      match step c (expects_absence rest) subj s with
      | inl f => (Failed f, s)
      | inr (subj', s') => drain rest subj' s'
      end
  end.

Definition run {B : Browser} (q : list command) (s : state B)
  : outcome * state B :=
  drain q NoSubject s.

(** ** The runner *)

(** The part of [cypress.config.js] the suite's behaviour depends on; the
    file is not among the sources, so the option is a parameter.  Cypress
    enables test isolation unless the configuration turns it off. *)
Record config : Type := mkConfig {
  testIsolation : bool
}.

Definition default_config : config := mkConfig true.

(** What the runner reports for one test. *)
Inductive verdict : Type :=
| Passing
| FailingInHook (f : failure)   (* a beforeEach hook failed *)
| Failing (f : failure)         (* the body failed *)
| Skipped.                      (* not run: a hook failed earlier in the suite *)

Definition passed (v : verdict) : bool :=
  match v with
  | Passing => true
  | _ => false
  end.

Definition hook_failed (v : verdict) : bool :=
  match v with
  | FailingInHook _ => true
  | _ => false
  end.

(** Hooks and body are separate runnables: the body runs only when the
    hooks passed, from the state they reached and on a queue of its own. *)
Definition run_hooks_then_body {B : Browser} (s : suite) (t : test)
  (st : state B) : verdict * state B :=
  match run (setup s) st with
  | (Failed f, st1) => (FailingInHook f, st1)
  | (Passed, st1) =>
      match run (queue (fn t)) st1 with
      | (Passed, st2) => (Passing, st2)
      | (Failed f, st2) => (Failing f, st2)
      end
  end.

(** One test: with test isolation the runner first resets the browser, then
    runs the suite's hooks and the test body. *)
Definition run_test {B : Browser} (cfg : config) (s : suite) (t : test)
  (st : state B) : verdict * state B :=
  run_hooks_then_body s t (if testIsolation cfg then blank B else st).

(** Tests of a suite run in registration order, each from the state the
    previous one left.  A failure in a body ends only that test; a failure
    in a beforeEach hook fails the current test and skips the tests of the
    suite that remain. *)
Fixpoint run_tests {B : Browser} (cfg : config) (s : suite) (ts : list test)
  (st : state B) : list (string * verdict) * state B :=
  match ts with
  | [] => ([], st)
  | t :: ts' =>
      let (v, st1) := run_test cfg s t st in
      if hook_failed v
      then ((title t, v) :: map (fun t' => (title t', Skipped)) ts', st1)
      else
        let (vs, st2) := run_tests cfg s ts' st1 in
        ((title t, v) :: vs, st2)
  end.

Definition run_suite {B : Browser} (cfg : config) (s : suite) (st : state B)
  : list (string * verdict) * state B :=
  run_tests cfg s (tests s) st.

(** Suites of a spec file run in source order. *)
Fixpoint run_spec {B : Browser} (cfg : config) (ss : list suite)
  (st : state B) : list (string * verdict) * state B :=
  match ss with
  | [] => ([], st)
  | s :: ss' =>
      let (os1, st1) := run_suite cfg s st in
      let (os2, st2) := run_spec cfg ss' st1 in
      (os1 ++ os2, st2)
  end.

(** Running a single test on its own ([it.only]): nothing ran before it. *)
Definition run_alone {B : Browser} (cfg : config) (s : suite) (t : test)
  (st : state B) : verdict :=
  fst (run_test cfg s t st).

(** The pass/fail view of a report: a test passed or it did not. *)
Definition pass_fail (rs : list (string * verdict)) : list (string * bool) :=
  map (fun r => (fst r, passed (snd r))) rs.

(** ** A simulated storefront

    The site under test is not part of the repository.  The simulation below
    follows the interface the spec file relies on (the login form, the
    inventory page, the cart link, the cart view and the checkout control),
    keeps the session in a cookie and the cart in local storage, and serves
    as the concrete browser on which the general statements are exercised. *)
Module Storefront.

Inductive page : Type :=
| AboutBlank | LoginPage | InventoryPage | CartPage | CheckoutStepOne
| NotFound.

Inductive elem : Type :=
| UsernameInput | PasswordInput | LoginButton | ErrorBanner
| InventoryList | InventoryItem (slug : string) | ItemName (slug : string)
| AddToCart (slug : string) | Remove (slug : string)
| CartLink | CartItem (slug : string) | Checkout.

Record st : Type := mkSt {
  shown : page;
  username_field : string;
  password_field : string;
  error : option string;
  session_cookie : option string;
  cart_storage : list string
}.

Definition products : list string :=
  ["sauce-labs-backpack"; "sauce-labs-bike-light"; "sauce-labs-bolt-t-shirt";
   "sauce-labs-fleece-jacket"; "sauce-labs-onesie";
   "test.allthethings()-t-shirt-(red)"].

Definition accounts : list string :=
  ["standard_user"; "locked_out_user"; "problem_user";
   "performance_glitch_user"; "error_user"; "visual_user"].

Definition mem (x : string) (l : list string) : bool :=
  existsb (String.eqb x) l.

Definition without (x : string) (l : list string) : list string :=
  filter (fun y => negb (String.eqb x y)) l.

Definition fresh : st := mkSt AboutBlank "" "" None None [].

Definition cart_controls (s : st) : list (string * elem) :=
  map (fun p => (("#remove-" ++ p)%string, Remove p)) (cart_storage s).

(** The elements of the page shown, each with the selector it answers to. *)
Definition dom (s : st) : list (string * elem) :=
  match shown s with
  | AboutBlank | NotFound => []
  | LoginPage =>
      [("#user-name", UsernameInput); ("#password", PasswordInput);
       ("#login-button", LoginButton)]
      ++ match error s with
         | Some _ => [(error_selector, ErrorBanner)]
         | None => []
         end
  | InventoryPage =>
      [(".shopping_cart_link", CartLink); (".inventory_list", InventoryList)]
      ++ map (fun p => (".inventory_item", InventoryItem p)) products
      ++ map (fun p => (".inventory_item_name", ItemName p)) products
      ++ map (fun p => (("#add-to-cart-" ++ p)%string, AddToCart p))
           (filter (fun p => negb (mem p (cart_storage s))) products)
      ++ cart_controls s
  | CartPage =>
      [(".shopping_cart_link", CartLink); ("#checkout", Checkout)]
      ++ map (fun p => (".cart_item", CartItem p)) (cart_storage s)
      ++ map (fun p => (".inventory_item_name", ItemName p)) (cart_storage s)
      ++ cart_controls s
  | CheckoutStepOne => [(".shopping_cart_link", CartLink)]
  end.

Definition select (sel : string) (nodes : list (string * elem)) : list elem :=
  map snd (filter (fun n => String.eqb (fst n) sel) nodes).

Definition descendants (s : st) (e : elem) : list (string * elem) :=
  match e with
  | InventoryList =>
      map (fun p => (".inventory_item", InventoryItem p)) products
      ++ map (fun p => (".inventory_item_name", ItemName p)) products
  | InventoryItem p | CartItem p => [(".inventory_item_name", ItemName p)]
  | _ => []
  end.

Definition goto (url : string) (s : st) : option st :=
  Some (mkSt (if String.eqb url root then LoginPage else NotFound)
          "" "" None (session_cookie s) (cart_storage s)).

Definition submit (s : st) : st :=
  if mem (username_field s) accounts
     && String.eqb (password_field s) "secret_sauce"
  then
    if String.eqb (username_field s) "locked_out_user"
    then mkSt LoginPage (username_field s) (password_field s)
           (Some "Epic sadface: Sorry, this user has been locked out.")
           (session_cookie s) (cart_storage s)
    else mkSt InventoryPage "" "" None (Some (username_field s))
           (cart_storage s)
  else mkSt LoginPage (username_field s) (password_field s)
         (Some "Epic sadface: Username and password do not match any user in this service")
         (session_cookie s) (cart_storage s).

Definition with_cart (s : st) (c : list string) : st :=
  mkSt (shown s) (username_field s) (password_field s) (error s)
    (session_cookie s) c.

Definition with_page (s : st) (p : page) : st :=
  mkSt p (username_field s) (password_field s) (error s)
    (session_cookie s) (cart_storage s).

(** Typing needs one target and a non-empty text. *)
Definition key_in (els : list elem) (txt : string) (s : st) : option st :=
  match els, txt with
  | _, EmptyString => None
  | [UsernameInput], _ =>
      Some (mkSt (shown s) (username_field s ++ txt)%string (password_field s)
              (error s) (session_cookie s) (cart_storage s))
  | [PasswordInput], _ =>
      Some (mkSt (shown s) (username_field s) (password_field s ++ txt)%string
              (error s) (session_cookie s) (cart_storage s))
  | _, _ => None
  end.

(** Clicking needs exactly one target. *)
Definition press (els : list elem) (s : st) : option st :=
  match els with
  | [LoginButton] => Some (submit s)
  | [AddToCart p] => Some (with_cart s (cart_storage s ++ [p]))
  | [Remove p] => Some (with_cart s (without p (cart_storage s)))
  | [CartLink] => Some (with_page s CartPage)
  | [Checkout] => Some (with_page s CheckoutStepOne)
  | [_] => Some s
  | _ => None
  end.

Definition href (s : st) : string :=
  match shown s with
  | AboutBlank => "about:blank"
  | LoginPage => root
  | InventoryPage => (root ++ "inventory.html")%string
  | CartPage => (root ++ "cart.html")%string
  | CheckoutStepOne => (root ++ "checkout-step-one.html")%string
  | NotFound => (root ++ "404")%string
  end.

Definition decimal (n : nat) : string :=
  NilEmpty.string_of_uint (Nat.to_uint n).

Definition text1 (s : st) (e : elem) : string :=
  match e with
  | ErrorBanner => match error s with Some m => m | None => "" end
  | CartLink =>
      match cart_storage s with
      | [] => ""
      | c => decimal (length c)
      end
  | ItemName p | InventoryItem p | CartItem p => p
  | _ => ""
  end.

Definition browser : Browser :=
  mkBrowser st elem fresh
    goto
    (fun s => mkSt (shown s) (username_field s) (password_field s) (error s)
                None (cart_storage s))
    (fun s => with_cart s [])
    (fun sel s => select sel (dom s))
    (fun els sel s => select sel (flat_map (descendants s) els))
    key_in
    press
    href
    (fun els _ => negb (is_empty els))
    (fun els s => String.concat "" (map (text1 s) els)).

End Storefront.

(** A site whose every page answers every selector with one element and
    whose cart link always reads "1". *)
Module FixedBadge.

Definition browser : Browser :=
  mkBrowser unit unit tt
    (fun _ _ => Some tt)
    (fun s => s)
    (fun s => s)
    (fun _ _ => [tt])
    (fun _ _ _ => [tt])
    (fun _ _ _ => Some tt)
    (fun _ _ => Some tt)
    (fun _ => (root ++ "inventory.html")%string)
    (fun _ _ => true)
    (fun _ _ => "1").

End FixedBadge.

(** A site that accepts everything and whose state is the list of the texts
    typed so far, oldest first. *)
Module Recorder.

Definition browser : Browser :=
  mkBrowser (list string) unit []
    (fun _ s => Some s)
    (fun s => s)
    (fun s => s)
    (fun _ _ => [tt])
    (fun _ _ _ => [tt])
    (fun _ txt s => Some (s ++ [txt]))
    (fun _ s => Some s)
    (fun _ => root)
    (fun _ _ => true)
    (fun _ _ => "").

End Recorder.

(** Two states agree once the root is loaded and cookies and local storage
    are cleared: they may differ only in what loading and clearing erase. *)
Definition agree_when_cleared {B : Browser} (a b : state B) : Prop :=
  option_map (fun x => clear_local_storage (clear_cookies x))
    (navigate root a)
  = option_map (fun x => clear_local_storage (clear_cookies x))
      (navigate root b).

(** Does the suite's setup contain both clearing commands? *)
Definition setup_clears (s : suite) : bool :=
  existsb (fun c => match c with ClearAllCookies => true | _ => false end)
    (setup s)
  && existsb (fun c => match c with ClearAllLocalStorage => true | _ => false end)
       (setup s).

(** Text read off the cart link, the element the badge lives in. *)
Definition badge_text {B : Browser} (s : state B) : string :=
  text_of (query ".shopping_cart_link" s) s.

(** Commands that start a chain from [cy] and ignore the previous subject. *)
Definition starts_chain (q : list command) : bool :=
  match q with
  | Visit _ :: _ | ClearAllCookies :: _ | ClearAllLocalStorage :: _
  | Get _ :: _ | Url :: _ => true
  | _ => false
  end.

(** Named tests of the product and cart suites. *)
Definition displays_six_products : test :=
  mkTest "should display all 6 products on inventory page"
    (cy_get ".inventory_list" ;; find ".inventory_item" ;;
     should (HaveLength 6)).

Definition adds_to_cart : test :=
  mkTest "should add product to cart and update badge"
    (cy_get "#add-to-cart-sauce-labs-backpack" ;; click ;;
     cy_get ".shopping_cart_link" ;; should (HaveText "1")).

Definition displays_cart_item : test :=
  mkTest "should display the added product in cart"
    (cy_get ".cart_item" ;; should (HaveLength 1)).

Definition removes_from_cart : test :=
  mkTest "should remove product from cart successfully"
    (cy_get "#remove-sauce-labs-backpack" ;; click ;;
     cy_get ".inventory_item_name" ;; should NotExist).

Definition goes_to_checkout : test :=
  mkTest "should navigate to checkout page"
    (cy_get "#checkout" ;; click ;;
     cy_url ;; should (Include "checkout-step-one")).

(** The test the login suite generates for [user]. *)
Definition login_test (user : string) : test :=
  mkTest (login_title user) (login_attempt user).

(** Outcome of every test of the given suites when each is run alone. *)
Definition alone_outcomes {B : Browser} (cfg : config) (ss : list suite)
  (st : state B) : list (string * verdict) :=
  flat_map (fun s => map (fun t => (title t, run_alone cfg s t st)) (tests s))
    ss.

(** A setup that starts by visiting the root and clearing cookies and local
    storage. *)
Definition self_clearing (s : suite) : Prop :=
  exists rest,
    setup s = [Visit root; ClearAllCookies; ClearAllLocalStorage] ++ rest.

(** A browser in which visiting the root and clearing cookies and local
    storage leads to one and the same state wherever it starts. *)
Definition resets_on_clear (B : Browser) : Prop :=
  forall s s' : state B,
    option_map (fun a => clear_local_storage (clear_cookies a))
      (navigate root s)
    = option_map (fun a => clear_local_storage (clear_cookies a))
        (navigate root s').

(** ** Static shape of a queue *)

(** What is known, before a command runs, about the subject it receives. *)
Inductive kind : Type :=
| KNone        (* nothing: the command must start a chain *)
| KElems       (* elements, at least one *)
| KAbsent      (* elements, possibly none: a query followed by 'not.exist' *)
| KText.       (* a string, as yielded by cy.url() *)

Definition has_kind {B : Browser} (subj : subject B) (k : kind) : Prop :=
  match k, subj with
  | KNone, _ => True
  | KElems, Elements els => els <> []
  | KAbsent, Elements _ => True
  | KText, Text _ => True
  | _, _ => False
  end.

Definition elements_kind (k : kind) : bool :=
  match k with
  | KElems | KAbsent => true
  | _ => false
  end.

(** Does the chainer apply to a subject of that kind? *)
Definition applies (c : chainer) (k : kind) : bool :=
  match c, k with
  | (BeVisible | HaveLength _ | HaveText _ | NotExist), (KElems | KAbsent) =>
      true
  | Contain _, (KElems | KAbsent | KText) => true
  | Include _, KText => true
  | _, _ => false
  end.

Definition queried (rest : list command) : kind :=
  if expects_absence rest then KAbsent else KElems.

(** Every command of the queue receives a subject it can work on. *)
Fixpoint well_chained (k : kind) (q : list command) : bool :=
  match q with
  | [] => true
  | c :: rest =>
      match c with
      | Visit _ | ClearAllCookies | ClearAllLocalStorage =>
          well_chained KNone rest
      | Get _ => well_chained (queried rest) rest
      | Find _ => elements_kind k && well_chained (queried rest) rest
      | Type_ _ | Click =>
          match k with
          | KElems => well_chained KElems rest
          | _ => false
          end
      | Url => well_chained KText rest
      | Should ch | And ch => applies ch k && well_chained k rest
      end
  end.


(** A browser whose pages always load and whose actions succeed on a
    subject that holds at least one element. *)
Definition dependable (B : Browser) : Prop :=
  (forall (url : string) (s : state B), navigate url s <> None)
  /\ (forall (els : list (element B)) (txt : string) (s : state B),
        els <> [] -> type_into els txt s <> None)
  /\ (forall (els : list (element B)) (s : state B),
        els <> [] -> click_on els s <> None).

(** A browser in which loading the root again right after loading it
    changes nothing. *)
Definition reload_idempotent (B : Browser) : Prop :=
  forall s s1 : state B,
    navigate root s = Some s1 -> navigate root s1 = Some s1.

(** * Properties *)

(** ** The registered suites *)

Lemma login_tests_registered :
  login_tests =
  mkSuite "Data-Driven Login Tests"
    [(tt, [Visit root; ClearAllCookies; ClearAllLocalStorage])]
    (map (fun user => mkTest (login_title user) (login_attempt user)) users).
Proof. reflexivity. Qed.

Lemma product_tests_registered :
  tests product_tests = [displays_six_products; adds_to_cart].
Proof. reflexivity. Qed.

Lemma shopping_cart_tests_registered :
  tests shopping_cart_tests =
  [displays_cart_item; removes_from_cart; goes_to_checkout].
Proof. reflexivity. Qed.

Lemma login_queue (username password : string) :
  queue (login username password) =
  [Visit root; Get "#user-name"; Type_ username; Get "#password";
   Type_ password; Get "#login-button"; Click].
Proof. reflexivity. Qed.

Lemma login_attempt_queue (user : string) :
  queue (login_attempt user) =
  queue (login user "secret_sauce") ++
  (if String.eqb user "locked_out_user"
   then [Get error_selector; Should BeVisible; And (Contain "locked out")]
   else [Url; Should (Include "inventory")]).
Proof.
  unfold login_attempt.
  destruct (String.eqb user "locked_out_user"); reflexivity.
Qed.

Lemma setup_login_tests :
  setup login_tests = [Visit root; ClearAllCookies; ClearAllLocalStorage].
Proof. reflexivity. Qed.

Lemma setup_product_tests :
  setup product_tests =
  [Visit root; ClearAllCookies; ClearAllLocalStorage]
  ++ queue (login "standard_user" "secret_sauce").
Proof. reflexivity. Qed.

Lemma setup_shopping_cart_tests :
  setup shopping_cart_tests =
  [Visit root] ++ queue (login "standard_user" "secret_sauce")
  ++ [Get "#add-to-cart-sauce-labs-backpack"; Click;
      Get ".shopping_cart_link"; Click].
Proof. reflexivity. Qed.

(** ** Draining a queue *)

Section Drain.

Context {B : Browser}.

Lemma drain_cons_passed (c : command) (rest : list command)
  (subj : subject B) (s s' : state B) :
  drain (c :: rest) subj s = (Passed, s') ->
  exists subj1 s1,
    step c (expects_absence rest) subj s = inr (subj1, s1)
    /\ drain rest subj1 s1 = (Passed, s').
Proof.
  cbn [drain].
  destruct (step c (expects_absence rest) subj s) as [f | [subj1 s1]].
  - discriminate.
  - intros H. exists subj1, s1. split; [reflexivity | exact H].
Qed.

Lemma drain_nil_passed (subj : subject B) (s s' : state B) :
  drain [] subj s = (Passed, s') -> s' = s.
Proof. cbn. intros H. inversion H. reflexivity. Qed.

Lemma found_inr (absent_ok : bool) (els : list (element B)) (s : state B)
  (subj1 : subject B) (s1 : state B) :
  found absent_ok els s = inr (subj1, s1) ->
  s1 = s /\ subj1 = Elements els /\ (absent_ok = false -> els <> []).
Proof.
  unfold found.
  destruct els as [| e els']; destruct absent_ok; cbn;
    intros H; inversion H; subst; repeat split; intros; congruence.
Qed.

Lemma found_present (absent_ok : bool) (els : list (element B)) (s : state B) :
  els <> [] -> found absent_ok els s = inr (Elements els, s).
Proof.
  unfold found. destruct els; [congruence | reflexivity].
Qed.

(** What a successful step did, command by command. *)
Lemma step_inr (c : command) (absent_ok : bool) (subj subj1 : subject B)
  (s s1 : state B) :
  step c absent_ok subj s = inr (subj1, s1) ->
  match c with
  | Visit url => navigate url s = Some s1 /\ subj1 = NoSubject
  | ClearAllCookies => s1 = clear_cookies s /\ subj1 = NoSubject
  | ClearAllLocalStorage => s1 = clear_local_storage s /\ subj1 = NoSubject
  | Get sel =>
      s1 = s /\ subj1 = Elements (query sel s)
      /\ (absent_ok = false -> query sel s <> [])
  | Find sel =>
      exists els, subj = Elements els /\ s1 = s
        /\ subj1 = Elements (query_within els sel s)
        /\ (absent_ok = false -> query_within els sel s <> [])
  | Type_ txt =>
      exists els, subj = Elements els /\ subj1 = Elements els
        /\ type_into els txt s = Some s1
  | Click =>
      exists els, subj = Elements els /\ subj1 = Elements els
        /\ click_on els s = Some s1
  | Url => s1 = s /\ subj1 = Text (location s)
  | Should ch | And ch =>
      s1 = s /\ subj1 = subj /\ holds ch subj s = Some true
  end.
Proof.
  destruct c; cbn [step].
  - destruct (navigate url s); intros H; inversion H; auto.
  - intros H; inversion H; auto.
  - intros H; inversion H; auto.
  - apply found_inr.
  - destruct subj as [| els | u]; try discriminate.
    intros H. apply found_inr in H. exists els. intuition.
  - destruct subj as [| els | u]; try discriminate.
    destruct (type_into els text s) eqn:E; intros H; inversion H; subst.
    exists els. auto.
  - destruct subj as [| els | u]; try discriminate.
    destruct (click_on els s) eqn:E; intros H; inversion H; subst.
    exists els. auto.
  - intros H; inversion H; auto.
  - unfold assert. destruct (holds c subj s) as [[|]|];
      intros H; inversion H; auto.
  - unfold assert. destruct (holds c subj s) as [[|]|];
      intros H; inversion H; auto.
Qed.

Lemma expects_absence_app (q1 q2 : list command) :
  starts_chain q2 = true ->
  expects_absence (q1 ++ q2) = expects_absence q1.
Proof.
  destruct q1 as [| c q1'].
  - cbn. destruct q2 as [| [] q2']; cbn; try discriminate; auto.
    all: destruct c; try reflexivity; discriminate.
  - reflexivity.
Qed.

Lemma drain_starts_chain (q : list command) (subj : subject B) (s : state B) :
  starts_chain q = true -> drain q subj s = drain q NoSubject s.
Proof.
  destruct q as [| [] rest]; cbn; try discriminate; reflexivity.
Qed.

(** A queue made of two parts, the second starting a new chain, drains as
    the first part followed by the second from the state it reached. *)
Lemma drain_app (q1 q2 : list command) (subj : subject B) (s : state B) :
  starts_chain q2 = true ->
  drain (q1 ++ q2) subj s =
  match drain q1 subj s with
  | (Passed, s1) => drain q2 NoSubject s1
  | r => r
  end.
Proof.
  intros Hq2. revert subj s.
  induction q1 as [| c rest IH]; intros subj s.
  - cbn. apply drain_starts_chain. exact Hq2.
  - cbn [app drain]. rewrite (expects_absence_app rest q2 Hq2).
    destruct (step c (expects_absence rest) subj s) as [f | [subj1 s1]].
    + reflexivity.
    + apply IH.
Qed.

Lemma run_app (q1 q2 : list command) (s : state B) :
  starts_chain q2 = true ->
  run (q1 ++ q2) s =
  match run q1 s with
  | (Passed, s1) => run q2 s1
  | r => r
  end.
Proof. intros H. unfold run. apply drain_app. exact H. Qed.

End Drain.

Lemma is_empty_true {A : Type} (l : list A) : is_empty l = true -> l = [].
Proof. destruct l; [reflexivity | discriminate]. Qed.

(** Inverting a run that passed, one command at a time. *)
Ltac unpack :=
  repeat match goal with
    | H : _ /\ _ |- _ => destruct H
    | H : exists _, _ |- _ => destruct H
    | H : Elements _ = Elements _ |- _ => injection H as H
    | H : NoSubject = Elements _ |- _ => discriminate H
    | H : Text _ = Elements _ |- _ => discriminate H
    end;
  subst.

Ltac passed H :=
  unfold run in H;
  repeat match type of H with
    | drain (_ :: _) _ _ = (Passed, _) =>
        let Hs := fresh "Hstep" in
        apply drain_cons_passed in H;
        destruct H as (? & ? & Hs & H);
        apply step_inr in Hs; cbn [expects_absence] in Hs; unpack
    | drain [] _ _ = (Passed, _) => apply drain_nil_passed in H; subst
    end;
  repeat match goal with
    | Hne : false = false -> _ |- _ => specialize (Hne eq_refl)
    end.

Section Runs.

Context {B : Browser}.

(** A command that is not an assertion never fails as one. *)
Lemma step_no_assertion_failure (c : command) (b : bool) (subj : subject B)
  (s : state B) (f : failure) :
  is_assertion c = false -> step c b subj s = inl f -> f <> AssertionFailed.
Proof.
  destruct c; cbn; try discriminate; intros _.
  - destruct (navigate url s); intros H; inversion H; discriminate.
  - unfold found. destruct (is_empty _ && negb b);
      intros H; inversion H; discriminate.
  - destruct subj; try (intros H; inversion H; discriminate).
    unfold found. destruct (is_empty _ && negb b);
      intros H; inversion H; discriminate.
  - destruct subj; try (intros H; inversion H; discriminate).
    destruct (type_into els text s); intros H; inversion H; discriminate.
  - destruct subj; try (intros H; inversion H; discriminate).
    destruct (click_on els s); intros H; inversion H; discriminate.
Qed.

Lemma drain_no_assertion_failure (q : list command) (subj : subject B)
  (s : state B) :
  forallb (fun c => negb (is_assertion c)) q = true ->
  fst (drain q subj s) <> Failed AssertionFailed.
Proof.
  revert subj s. induction q as [| c rest IH]; intros subj s Hq.
  - cbn. discriminate.
  - cbn in Hq. apply andb_prop in Hq. destruct Hq as [Hc Hrest].
    apply negb_true_iff in Hc. cbn [drain].
    destruct (step c (expects_absence rest) subj s) as [f | [subj1 s1]] eqn:E.
    + cbn. intros Heq.
      apply (step_no_assertion_failure c _ subj s f Hc E). congruence.
    + apply IH. exact Hrest.
Qed.

(** The login command passes exactly when its four interactions succeed in
    order: the page loads, each field is found and typed into, the button is
    found and clicked. *)
Lemma login_run_passed (username password : string) (s s' : state B) :
  run (queue (login username password)) s = (Passed, s') <->
  exists s1 s2 s3,
    navigate root s = Some s1
    /\ query "#user-name" s1 <> []
    /\ type_into (query "#user-name" s1) username s1 = Some s2
    /\ query "#password" s2 <> []
    /\ type_into (query "#password" s2) password s2 = Some s3
    /\ query "#login-button" s3 <> []
    /\ click_on (query "#login-button" s3) s3 = Some s'.
Proof.
  rewrite login_queue. split.
  - intros H. passed H. eauto 12.
  - intros (s1 & s2 & s3 & Hv & Hu & Htu & Hp & Htp & Hb & Hc).
    unfold run. cbn [drain step expects_absence].
    fold root. rewrite Hv.
    rewrite (found_present _ _ _ Hu), Htu.
    rewrite (found_present _ _ _ Hp), Htp.
    rewrite (found_present _ _ _ Hb), Hc. reflexivity.
Qed.

End Runs.

(** ** The login command *)

(** C2.  For every username and password the login command enqueues exactly
    four interactions in this order: navigation to the application root,
    typing the username into the username field, typing the password into
    the password field, clicking the login button; a run of it passes
    exactly when these four succeed one after the other.  Its callback
    returns no value, none of its commands is an assertion, and on no
    browser does a run of it end in an assertion failure. *)
Theorem login_performs_four_steps_without_judgment :
  forall username password : string,
    queue (login username password) =
    concat [ [Visit "https://www.saucedemo.com/"];
             [Get "#user-name"; Type_ username];
             [Get "#password"; Type_ password];
             [Get "#login-button"; Click] ]
    /\ returned (login username password) = tt
    /\ count is_assertion (queue (login username password)) = 0
    /\ forall (B : Browser) (s : state B),
         fst (run (queue (login username password)) s) <> Failed AssertionFailed
         /\ forall s' : state B,
              run (queue (login username password)) s = (Passed, s') <->
              exists s1 s2 s3,
                navigate "https://www.saucedemo.com/" s = Some s1
                /\ query "#user-name" s1 <> []
                /\ type_into (query "#user-name" s1) username s1 = Some s2
                /\ query "#password" s2 <> []
                /\ type_into (query "#password" s2) password s2 = Some s3
                /\ query "#login-button" s3 <> []
                /\ click_on (query "#login-button" s3) s3 = Some s'.
Proof.
  intros username password. repeat split.
  - unfold run. apply drain_no_assertion_failure. reflexivity.
  - apply login_run_passed.
  - apply login_run_passed.
Qed.


(** ** The login suite *)

Lemma scenario_login_test (user : string) :
  scenario login_tests (login_test user) =
  [Visit root; ClearAllCookies; ClearAllLocalStorage;
   Visit root; Get "#user-name"; Type_ user; Get "#password";
   Type_ "secret_sauce"; Get "#login-button"; Click]
  ++ (if String.eqb user "locked_out_user"
      then [Get error_selector; Should BeVisible; And (Contain "locked out")]
      else [Url; Should (Include "inventory")]).
Proof.
  unfold scenario, login_test. rewrite setup_login_tests. cbn [fn].
  rewrite login_attempt_queue, login_queue. reflexivity.
Qed.

Ltac checks :=
  cbn [holds] in *;
  repeat match goal with
    | H : Some _ = Some true |- _ => injection H as H
    end;
  repeat match goal with
    | H : Nat.eqb _ _ = true |- _ => apply Nat.eqb_eq in H
    | H : String.eqb _ _ = true |- _ => apply String.eqb_eq in H
    | H : is_empty _ = true |- _ => apply is_empty_true in H
    end.

(** C1.  For each of the three usernames of [users] the suite holds the
    test generated for it, whose body logs in with the password
    "secret_sauce" and then branches on the username.  For
    'locked_out_user' the body asserts that the error element is visible and
    that its text contains "locked out", so a passing run ends on a page
    where both hold; for the other two usernames the body asserts that the
    location contains "inventory", so a passing run ends at such a
    location. *)
Theorem login_scenario_branches_on_username :
  forall user : string,
    In user users ->
    In (login_test user) (tests login_tests)
    /\ (user = "locked_out_user" ->
          queue (login_attempt user) =
          queue (login user "secret_sauce")
          ++ [Get error_selector; Should BeVisible;
              And (Contain "locked out")]
          /\ forall (B : Browser) (st st' : state B),
               run (scenario login_tests (login_test user)) st = (Passed, st') ->
               visible (query error_selector st') st' = true
               /\ includes "locked out"
                    (text_of (query error_selector st') st') = true)
    /\ (user <> "locked_out_user" ->
          queue (login_attempt user) =
          queue (login user "secret_sauce")
          ++ [Url; Should (Include "inventory")]
          /\ forall (B : Browser) (st st' : state B),
               run (scenario login_tests (login_test user)) st = (Passed, st') ->
               includes "inventory" (location st') = true).
Proof.
  intros user Hin. split.
  - rewrite login_tests_registered. cbn [tests].
    apply (in_map login_test). exact Hin.
  - split.
    + intros ->. split; [reflexivity |].
      intros B st st' H. rewrite scenario_login_test in H.
      cbn [String.eqb Ascii.eqb Bool.eqb app] in H.
      passed H. checks. auto.
    + intros Hne. apply String.eqb_neq in Hne. split.
      * rewrite login_attempt_queue, Hne. reflexivity.
      * intros B st st' H. rewrite scenario_login_test, Hne in H.
        cbn [app] in H. passed H. checks. assumption.
Qed.

(** ** The product suite *)

Lemma scenario_displays_six_products :
  scenario product_tests displays_six_products =
  [Visit root; ClearAllCookies; ClearAllLocalStorage]
  ++ queue (login "standard_user" "secret_sauce")
  ++ [Get ".inventory_list"; Find ".inventory_item"; Should (HaveLength 6)].
Proof. reflexivity. Qed.

Lemma scenario_adds_to_cart :
  scenario product_tests adds_to_cart =
  [Visit root; ClearAllCookies; ClearAllLocalStorage]
  ++ queue (login "standard_user" "secret_sauce")
  ++ [Get "#add-to-cart-sauce-labs-backpack"; Click;
      Get ".shopping_cart_link"; Should (HaveText "1")].
Proof. reflexivity. Qed.

(** C5.  The product suite holds the test that, after the setup has logged
    in as 'standard_user' with "secret_sauce", looks up the product
    container, finds the item elements within it and asserts that there are
    6 of them: whenever the scenario passes, the container of the page it
    ends on holds exactly 6 item elements. *)
Theorem product_listing_holds_six_items :
  forall (B : Browser) (st st' : state B),
    run (scenario product_tests displays_six_products) st = (Passed, st') ->
    In displays_six_products (tests product_tests)
    /\ setup product_tests =
       [Visit root; ClearAllCookies; ClearAllLocalStorage]
       ++ queue (login "standard_user" "secret_sauce")
    /\ queue (fn displays_six_products) =
       [Get ".inventory_list"; Find ".inventory_item"; Should (HaveLength 6)]
    /\ run (setup product_tests) st = (Passed, st')
    /\ length (query_within (query ".inventory_list" st') ".inventory_item" st')
       = 6.
Proof.
  intros B st st' H.
  split; [cbn; auto |]. split; [reflexivity |]. split; [reflexivity |].
  unfold scenario in H. rewrite run_app in H by reflexivity.
  destruct (run (setup product_tests) st) as [[| f] s1] eqn:Hsetup;
    [| discriminate].
  cbn [fn displays_six_products queue snd cy_bind cy_get find should enqueue
       app] in H.
  passed H. checks. auto.
Qed.

(** ** The cart suite *)

Lemma scenario_cart (t : test) :
  scenario shopping_cart_tests t =
  ([Visit root] ++ queue (login "standard_user" "secret_sauce")
   ++ [Get "#add-to-cart-sauce-labs-backpack"; Click;
       Get ".shopping_cart_link"; Click])
  ++ queue (fn t).
Proof. reflexivity. Qed.

(** The cart setup passes exactly when, after an initial navigation to the
    root, the login command passes, the add-to-cart control of the backpack
    is found and clicked, and the cart link is found and clicked. *)
Lemma cart_setup_passed {B : Browser} (st s : state B) :
  run (setup shopping_cart_tests) st = (Passed, s) ->
  exists s0 s1 s2,
    navigate root st = Some s0
    /\ run (queue (login "standard_user" "secret_sauce")) s0 = (Passed, s1)
    /\ query "#add-to-cart-sauce-labs-backpack" s1 <> []
    /\ click_on (query "#add-to-cart-sauce-labs-backpack" s1) s1 = Some s2
    /\ query ".shopping_cart_link" s2 <> []
    /\ click_on (query ".shopping_cart_link" s2) s2 = Some s.
Proof.
  intros H. rewrite setup_shopping_cart_tests in H.
  change ([Visit root] ++ queue (login "standard_user" "secret_sauce")
          ++ [Get "#add-to-cart-sauce-labs-backpack"; Click;
              Get ".shopping_cart_link"; Click])
    with (([Visit root] ++ queue (login "standard_user" "secret_sauce"))
          ++ [Get "#add-to-cart-sauce-labs-backpack"; Click;
              Get ".shopping_cart_link"; Click]) in H.
  rewrite run_app in H by reflexivity.
  rewrite run_app in H by reflexivity.
  destruct (run [Visit root] st) as [[| f0] s0] eqn:Hvisit; [| discriminate].
  destruct (run (queue (login "standard_user" "secret_sauce")) s0)
    as [[| f1] s1] eqn:Hlogin; [| discriminate].
  passed Hvisit. passed H.
  eauto 12.
Qed.

(** C6.  The cart suite registers, in this order, the tests
    'should display the added product in cart', 'should remove product from
    cart successfully' and 'should navigate to checkout page'.  Its setup
    navigates to the root, logs in as 'standard_user', clicks the
    add-to-cart control of the backpack and opens the cart view.  The first
    test asserts that exactly one cart line item is present there; the
    second clicks the item's remove control and asserts that no product-name
    element exists afterwards.  So a passing run of the first ends on a view
    with exactly one line item, and a passing run of the second ends, after
    the click on the remove control, on a view with zero product-name
    elements. *)
Theorem cart_holds_one_item_and_removal_empties_it :
  forall (B : Browser) (st st' : state B),
    tests shopping_cart_tests =
    [displays_cart_item; removes_from_cart; goes_to_checkout]
    /\ queue (fn displays_cart_item) =
       [Get ".cart_item"; Should (HaveLength 1)]
    /\ queue (fn removes_from_cart) =
       [Get "#remove-sauce-labs-backpack"; Click;
        Get ".inventory_item_name"; Should NotExist]
    /\ setup shopping_cart_tests =
       [Visit root] ++ queue (login "standard_user" "secret_sauce")
       ++ [Get "#add-to-cart-sauce-labs-backpack"; Click;
           Get ".shopping_cart_link"; Click]
    /\ (run (scenario shopping_cart_tests displays_cart_item) st
        = (Passed, st') ->
        run (setup shopping_cart_tests) st = (Passed, st')
        /\ length (query ".cart_item" st') = 1)
    /\ (run (scenario shopping_cart_tests removes_from_cart) st
        = (Passed, st') ->
        exists s1,
          run (setup shopping_cart_tests) st = (Passed, s1)
          /\ click_on (query "#remove-sauce-labs-backpack" s1) s1 = Some st'
          /\ length (query ".inventory_item_name" st') = 0).
Proof.
  intros B st st'.
  split; [reflexivity |]. split; [reflexivity |]. split; [reflexivity |].
  split; [reflexivity |]. split.
  - intros H. unfold scenario in H. rewrite run_app in H by reflexivity.
    destruct (run (setup shopping_cart_tests) st) as [[| f] s1] eqn:Hsetup;
      [| discriminate].
    cbn [fn displays_cart_item queue snd cy_bind cy_get should enqueue app]
      in H.
    passed H. checks. auto.
  - intros H. unfold scenario in H. rewrite run_app in H by reflexivity.
    destruct (run (setup shopping_cart_tests) st) as [[| f] s1] eqn:Hsetup;
      [| discriminate].
    cbn [fn removes_from_cart queue snd cy_bind cy_get should click enqueue
         app] in H.
    passed H. checks. exists s1.
    match goal with
    | Hq : query ".inventory_item_name" _ = [] |- _ => rewrite Hq
    end.
    auto.
Qed.


(** C4 as stated fails: on a site whose cart link reads "1" before and after
    the click the scenario passes, although the text before the click is
    neither absent nor "0".  The state the setup ends in is the state the
    click is performed in. *)
Lemma badge_before_click_is_not_checked :
  ~ (forall (B : Browser) (st s1 st' : state B),
       run (setup product_tests) st = (Passed, s1) ->
       run (scenario product_tests adds_to_cart) st = (Passed, st') ->
       (badge_text s1 = "" \/ badge_text s1 = "0") /\ badge_text st' = "1").
Proof.
  intros H.
  destruct (H FixedBadge.browser tt tt tt eq_refl eq_refl) as [[E | E] _];
    discriminate E.
Qed.

(** C4, amended.  The second test of the product suite clicks the
    add-to-cart control of the backpack and then asserts that the text of
    the cart link is exactly "1": a passing run ends, after that click, on a
    page whose cart link reads "1".  The scenario holds no assertion up to
    and including the click, so the text before the click is not
    constrained. *)
Theorem add_to_cart_badge_reads_one_after_click :
  forall (B : Browser) (st st' : state B),
    run (scenario product_tests adds_to_cart) st = (Passed, st') ->
    In adds_to_cart (tests product_tests)
    /\ count is_assertion
         (setup product_tests ++ [Get "#add-to-cart-sauce-labs-backpack"; Click])
       = 0
    /\ exists s1,
         run (setup product_tests) st = (Passed, s1)
         /\ click_on (query "#add-to-cart-sauce-labs-backpack" s1) s1 = Some st'
         /\ badge_text st' = "1".
Proof.
  intros B st st' H. split; [cbn; auto |]. split; [reflexivity |].
  unfold scenario in H. rewrite run_app in H by reflexivity.
  destruct (run (setup product_tests) st) as [[| f] s1] eqn:Hsetup;
    [| discriminate].
  cbn [fn adds_to_cart queue snd cy_bind cy_get should click enqueue app] in H.
  passed H. checks. exists s1. unfold badge_text. auto.
Qed.

(** ** Setup hooks and state carried between scenarios *)

Lemma self_clearing_run {B : Browser} (q : list command) (st : state B) :
  run ([Visit root; ClearAllCookies; ClearAllLocalStorage] ++ q) st =
  match navigate root st with
  | Some s0 => run q (clear_local_storage (clear_cookies s0))
  | None => (Failed CommandFailed, st)
  end.
Proof.
  unfold run. cbn [app drain step].
  destruct (navigate root st); reflexivity.
Qed.

(** C3 as stated fails: the setup of the Shopping Cart suite holds no
    clearing command. *)
Lemma cart_setup_clears_nothing :
  ~ (forall s : suite, In s spec_file -> setup_clears s = true).
Proof.
  intros H.
  assert (Hcart : setup_clears shopping_cart_tests = true).
  { apply H. cbn. auto. }
  discriminate Hcart.
Qed.

(** ** The runner: order of execution *)

Lemma run_tests_length {B : Browser} (cfg : config) (s : suite)
  (ts : list test) (st : state B) :
  length (fst (run_tests cfg s ts st)) = length ts.
Proof.
  revert st. induction ts as [| t ts' IH]; intros st.
  - reflexivity.
  - cbn [run_tests].
    destruct (run_test cfg s t st) as [v st1].
    destruct (hook_failed v).
    + cbn. rewrite length_map. reflexivity.
    + specialize (IH st1).
      destruct (run_tests cfg s ts' st1) as [vs st2].
      cbn in *. rewrite IH. reflexivity.
Qed.

(** For a test registered in the file, the runner's verdict is the outcome
    of draining the whole scenario, and the browser ends in the same
    state. *)
Lemma runner_runs_the_scenario {B : Browser} (s : suite) (t : test)
  (st : state B) :
  In s spec_file -> In t (tests s) ->
  run (scenario s t) st =
  (match fst (run_hooks_then_body s t st) with
   | Passing | Skipped => Passed
   | FailingInHook f | Failing f => Failed f
   end,
   snd (run_hooks_then_body s t st)).
Proof.
  intros Hs Ht.
  assert (Hchain : starts_chain (queue (fn t)) = true).
  { cbn in Hs.
    destruct Hs as [<- | [<- | [<- | []]]]; cbn in Ht;
      repeat match goal with
        | H : _ \/ _ |- _ => destruct H as [<- | H]
        | H : False |- _ => destruct H
        end; reflexivity. }
  unfold scenario, run_hooks_then_body. rewrite (run_app _ _ st Hchain).
  destruct (run (setup s) st) as [[| f] st1]; [| reflexivity].
  destruct (run (queue (fn t)) st1) as [[| f1] st2]; reflexivity.
Qed.

(** C8.  [users] is the three-element array 'standard_user',
    'locked_out_user', 'problem_user' without repetition; the login suite
    registers exactly the tests generated from it, one per username and in
    the array's order; each body starts with the login command for that
    username and the password "secret_sauce".  The runner executes them in
    the array's order: the test of 'standard_user' runs first, from the
    state the browser is handed over in, the test of 'locked_out_user' runs
    from the state the first one left, and the test of 'problem_user' from
    the state the second one left (a failing hook skips the tests after
    it).  On a site that records what is typed, the three usernames are
    typed in the array's order, each followed by the password. *)
Theorem login_suite_one_scenario_per_user_in_order :
  users = ["standard_user"; "locked_out_user"; "problem_user"]
  /\ NoDup users
  /\ tests login_tests = map login_test users
  /\ length (tests login_tests) = 3
  /\ (forall user : string,
        firstn 7 (queue (fn (login_test user))) =
        queue (login user "secret_sauce"))
  /\ (forall (B : Browser) (cfg : config) (st : state B),
        run_suite cfg login_tests st =
        let (v1, s1) :=
          run_test cfg login_tests (login_test "standard_user") st in
        if hook_failed v1
        then ([(login_title "standard_user", v1);
               (login_title "locked_out_user", Skipped);
               (login_title "problem_user", Skipped)], s1)
        else
          let (v2, s2) :=
            run_test cfg login_tests (login_test "locked_out_user") s1 in
          if hook_failed v2
          then ([(login_title "standard_user", v1);
                 (login_title "locked_out_user", v2);
                 (login_title "problem_user", Skipped)], s2)
          else
            let (v3, s3) :=
              run_test cfg login_tests (login_test "problem_user") s2 in
            ([(login_title "standard_user", v1);
              (login_title "locked_out_user", v2);
              (login_title "problem_user", v3)], s3))
  /\ snd (@run_suite Recorder.browser (mkConfig false) login_tests [])
     = ["standard_user"; "secret_sauce";
        "locked_out_user"; "secret_sauce";
        "problem_user"; "secret_sauce"].
Proof.
  split; [reflexivity |]. split.
  { repeat constructor; cbn; intuition discriminate. }
  split; [reflexivity |]. split; [reflexivity |]. split.
  { intros user. cbn [fn login_test]. rewrite login_attempt_queue, login_queue.
    reflexivity. }
  split.
  - intros B cfg st. unfold run_suite.
    change (tests login_tests)
      with [login_test "standard_user"; login_test "locked_out_user";
            login_test "problem_user"].
    cbn [run_tests].
    destruct (run_test cfg login_tests (login_test "standard_user") st)
      as [v1 s1].
    destruct (hook_failed v1); [reflexivity |].
    destruct (run_test cfg login_tests (login_test "locked_out_user") s1)
      as [v2 s2].
    destruct (hook_failed v2); [reflexivity |].
    destruct (run_test cfg login_tests (login_test "problem_user") s2)
      as [v3 s3].
    destruct (hook_failed v3); reflexivity.
  - vm_compute. reflexivity.
Qed.

(** ** State carried from one scenario to the next *)

Lemma hook_failed_not_passed (v : verdict) :
  hook_failed v = true -> passed v = false.
Proof. destruct v; cbn; congruence. Qed.

Lemma firstn_two_suites {A : Type} (l1 l2 l3 : list A) :
  length l1 = 3 -> length l2 = 2 -> firstn 5 (l1 ++ l2 ++ l3) = l1 ++ l2.
Proof.
  destruct l1 as [| a [| b [| c [| d l1]]]]; try discriminate.
  destruct l2 as [| e [| f [| g l2]]]; try discriminate.
  reflexivity.
Qed.

Section Independence.

Context {B : Browser}.

(** Whether the hooks fail does not depend on the test they precede. *)
Lemma hook_failed_any_test (s : suite) (t t' : test) (st : state B) :
  hook_failed (fst (run_hooks_then_body s t st)) =
  hook_failed (fst (run_hooks_then_body s t' st)).
Proof.
  unfold run_hooks_then_body.
  destruct (run (setup s) st) as [[| f] st1]; [| reflexivity].
  destruct (run (queue (fn t)) st1) as [[| f1] s1],
           (run (queue (fn t')) st1) as [[| f2] s2]; reflexivity.
Qed.

(** A self-clearing setup gives a test the same verdict from any two states
    that agree once the root is loaded and cookies and local storage are
    cleared. *)
Lemma hooks_then_body_self_clearing (s : suite) (t : test) (a b : state B) :
  self_clearing s -> agree_when_cleared a b ->
  fst (run_hooks_then_body s t a) = fst (run_hooks_then_body s t b).
Proof.
  intros [rest Hsetup] Hab. unfold agree_when_cleared in Hab.
  unfold run_hooks_then_body. rewrite Hsetup, !self_clearing_run.
  destruct (navigate root a) as [a' |], (navigate root b) as [b' |];
    cbn in Hab; try discriminate; [| reflexivity].
  injection Hab as ->. reflexivity.
Qed.

Lemma scenario_self_clearing (s : suite) (t : test) (a b : state B) :
  self_clearing s -> agree_when_cleared a b ->
  fst (run (scenario s t) a) = fst (run (scenario s t) b).
Proof.
  intros [rest Hsetup] Hab. unfold agree_when_cleared in Hab.
  unfold scenario. rewrite Hsetup, <- app_assoc, !self_clearing_run.
  destruct (navigate root a) as [a' |], (navigate root b) as [b' |];
    cbn in Hab; try discriminate; [| reflexivity].
  injection Hab as ->. reflexivity.
Qed.

Lemma run_test_self_clearing (cfg cfg' : config) (s : suite) (t : test)
  (a b : state B) :
  resets_on_clear B -> self_clearing s ->
  fst (run_test cfg s t a) = fst (run_test cfg' s t b).
Proof.
  intros Hreset Hs. unfold run_test.
  apply hooks_then_body_self_clearing; [exact Hs |]. apply Hreset.
Qed.

Lemma run_test_isolated (cfg : config) (s : suite) (t : test)
  (a b : state B) :
  testIsolation cfg = true -> run_test cfg s t a = run_test cfg s t b.
Proof. intros Hiso. unfold run_test. rewrite Hiso. reflexivity. Qed.

(** When no test of a suite depends on the state it starts in, each test
    passes within the suite exactly when it passes alone. *)
Lemma run_tests_stable (cfg : config) (s : suite) (ts : list test)
  (st st0 : state B) :
  (forall (t : test) (a b : state B),
      fst (run_test cfg s t a) = fst (run_test cfg s t b)) ->
  pass_fail (fst (run_tests cfg s ts st)) =
  pass_fail (map (fun t => (title t, run_alone cfg s t st0)) ts).
Proof.
  intros Hstable. revert st.
  induction ts as [| t ts' IH]; intros st.
  - reflexivity.
  - cbn [run_tests map]. unfold run_alone at 1.
    pose proof (Hstable t st st0) as E.
    destruct (run_test cfg s t st) as [v st1]. cbn [fst] in E.
    destruct (hook_failed v) eqn:Hhook.
    + unfold pass_fail. cbn [fst map snd]. rewrite <- E. f_equal.
      rewrite !map_map. apply map_ext. intros t'. cbn [fst snd passed].
      f_equal. symmetry. apply hook_failed_not_passed.
      unfold run_alone, run_test.
      rewrite (hook_failed_any_test s t' t). fold (run_test cfg s t st0).
      rewrite <- E. exact Hhook.
    + specialize (IH st1).
      destruct (run_tests cfg s ts' st1) as [vs st2].
      unfold pass_fail in *. cbn [fst map snd] in *.
      rewrite <- E, IH. reflexivity.
Qed.

Lemma run_spec_stable (cfg : config) (ss : list suite) (st st0 : state B) :
  (forall (s : suite) (t : test) (a b : state B),
      In s ss -> fst (run_test cfg s t a) = fst (run_test cfg s t b)) ->
  pass_fail (fst (run_spec cfg ss st)) =
  pass_fail (alone_outcomes cfg ss st0).
Proof.
  revert st. induction ss as [| s ss' IH]; intros st Hstable.
  - reflexivity.
  - cbn [run_spec alone_outcomes flat_map]. unfold run_suite.
    pose proof (run_tests_stable cfg s (tests s) st st0
                  (fun t a b => Hstable s t a b (or_introl eq_refl))) as E.
    destruct (run_tests cfg s (tests s) st) as [os1 st1].
    assert (Hrest : forall (s' : suite) (t : test) (a b : state B),
               In s' ss' ->
               fst (run_test cfg s' t a) = fst (run_test cfg s' t b)).
    { intros s' t a b Hin. apply Hstable. right. exact Hin. }
    specialize (IH st1 Hrest).
    destruct (run_spec cfg ss' st1) as [os2 st2].
    unfold pass_fail in *. cbn [fst] in *.
    rewrite !map_app, E, IH. reflexivity.
Qed.

(** The reports of a suite are the same under two settings when no test's
    verdict depends on the setting or on the starting state. *)
Lemma run_tests_across (cfg cfg' : config) (s : suite) (ts : list test)
  (st st' : state B) :
  (forall (t : test) (a b : state B),
      fst (run_test cfg s t a) = fst (run_test cfg' s t b)) ->
  fst (run_tests cfg s ts st) = fst (run_tests cfg' s ts st').
Proof.
  intros Hsame. revert st st'.
  induction ts as [| t ts' IH]; intros st st'.
  - reflexivity.
  - cbn [run_tests].
    pose proof (Hsame t st st') as E.
    destruct (run_test cfg s t st) as [v st1],
             (run_test cfg' s t st') as [v' st1'].
    cbn [fst] in E. subst v'.
    destruct (hook_failed v); [reflexivity |].
    specialize (IH st1 st1').
    destruct (run_tests cfg s ts' st1) as [vs st2],
             (run_tests cfg' s ts' st1') as [vs' st2'].
    cbn [fst] in *. rewrite IH. reflexivity.
Qed.

(** The first five reports of the file are those of the login and product
    suites. *)
Lemma first_five_reports (cfg : config) (st : state B) :
  exists st1 : state B,
    firstn 5 (fst (run_spec cfg spec_file st)) =
    fst (run_tests cfg login_tests (tests login_tests) st)
    ++ fst (run_tests cfg product_tests (tests product_tests) st1).
Proof.
  unfold spec_file. cbn [run_spec]. unfold run_suite.
  pose proof (run_tests_length cfg login_tests (tests login_tests) st) as L1.
  destruct (run_tests cfg login_tests (tests login_tests) st) as [os1 st1].
  exists st1.
  pose proof (run_tests_length cfg product_tests (tests product_tests) st1)
    as L2.
  destruct (run_tests cfg product_tests (tests product_tests) st1)
    as [os2 st2].
  destruct (run_tests cfg shopping_cart_tests (tests shopping_cart_tests) st2)
    as [os3 st3].
  cbn [fst] in *. apply firstn_two_suites; assumption.
Qed.

(** The five scenarios of the login and product suites pass within the
    file exactly when they pass alone, with or without the runner's
    isolation. *)
Lemma self_clearing_scenarios_independent (cfg : config) (st st0 : state B) :
  resets_on_clear B ->
  firstn 5 (pass_fail (fst (run_spec cfg spec_file st))) =
  pass_fail (alone_outcomes cfg [login_tests; product_tests] st0).
Proof.
  intros Hreset.
  assert (Hl : self_clearing login_tests) by (eexists; reflexivity).
  assert (Hp : self_clearing product_tests) by (eexists; reflexivity).
  unfold pass_fail at 1. rewrite firstn_map.
  destruct (first_five_reports cfg st) as [st1 ->].
  rewrite map_app.
  change (map (fun r => (fst r, passed (snd r)))
            (fst (run_tests cfg login_tests (tests login_tests) st)))
    with (pass_fail (fst (run_tests cfg login_tests (tests login_tests) st))).
  change (map (fun r => (fst r, passed (snd r)))
            (fst (run_tests cfg product_tests (tests product_tests) st1)))
    with (pass_fail
            (fst (run_tests cfg product_tests (tests product_tests) st1))).
  rewrite (run_tests_stable cfg login_tests (tests login_tests) st st0
             (fun t a b => run_test_self_clearing cfg cfg login_tests t a b
                             Hreset Hl)).
  rewrite (run_tests_stable cfg product_tests (tests product_tests) st1 st0
             (fun t a b => run_test_self_clearing cfg cfg product_tests t a b
                             Hreset Hp)).
  unfold alone_outcomes, pass_fail. cbn [flat_map].
  rewrite app_nil_r, map_app. reflexivity.
Qed.

End Independence.

Lemma storefront_resets_on_clear : resets_on_clear Storefront.browser.
Proof. intros s s'. reflexivity. Qed.

(** C3, amended.  In the Data-Driven Login and Product suites the setup
    begins with a navigation to the root followed by clearing all cookies
    and all local storage, so whatever the scenario runs next, the rest of
    the setup and the body, runs from a state with both cleared, and no
    state an earlier scenario left crosses into it: from any two states
    that agree once the root is loaded and cookies and local storage are
    cleared, the scenario has the same outcome and the runner gives the
    test the same verdict.  This does not extend to the Shopping Cart
    suite: its setup begins with a navigation to the root and holds no
    clearing command, and on the simulated storefront a product left in
    local storage changes the outcome of its scenarios. *)
Theorem login_and_product_setups_clear_before_body :
  (forall s : suite,
      In s [login_tests; product_tests] ->
      setup_clears s = true
      /\ firstn 3 (setup s) =
         [Visit root; ClearAllCookies; ClearAllLocalStorage]
      /\ forall (t : test) (B : Browser) (st : state B),
           scenario s t =
           [Visit root; ClearAllCookies; ClearAllLocalStorage]
           ++ skipn 3 (setup s) ++ queue (fn t)
           /\ run (scenario s t) st =
              match navigate root st with
              | Some s0 =>
                  run (skipn 3 (setup s) ++ queue (fn t))
                    (clear_local_storage (clear_cookies s0))
              | None => (Failed CommandFailed, st)
              end
           /\ forall (cfg : config) (a b : state B),
                agree_when_cleared a b ->
                fst (run (scenario s t) a) = fst (run (scenario s t) b)
                /\ (testIsolation cfg = false ->
                    fst (run_test cfg s t a) = fst (run_test cfg s t b)))
  /\ count is_clear (setup shopping_cart_tests) = 0
  /\ hd_error (setup shopping_cart_tests) = Some (Visit root)
  /\ (let a := Storefront.fresh in
      let b := Storefront.mkSt Storefront.AboutBlank "" "" None None
                 ["sauce-labs-backpack"] in
      @agree_when_cleared Storefront.browser a b
      /\ forall t : test,
           In t (tests shopping_cart_tests) ->
           fst (@run Storefront.browser (scenario shopping_cart_tests t) a)
           = Passed
           /\ fst (@run Storefront.browser (scenario shopping_cart_tests t) b)
              = Failed ElementNotFound).
Proof.
  split; [| split; [reflexivity | split; [reflexivity |]]].
  - intros s Hin.
    assert (Hs : self_clearing s).
    { destruct Hin as [<- | [<- | []]]; eexists; reflexivity. }
    assert (Hfacts : setup_clears s = true
                     /\ firstn 3 (setup s) =
                        [Visit root; ClearAllCookies; ClearAllLocalStorage]
                     /\ forall t : test,
                          scenario s t =
                          [Visit root; ClearAllCookies; ClearAllLocalStorage]
                          ++ skipn 3 (setup s) ++ queue (fn t)).
    { destruct Hin as [<- | [<- | []]]; repeat split; reflexivity. }
    destruct Hfacts as (Hclears & Hfirst & Hscenario).
    split; [exact Hclears |]. split; [exact Hfirst |].
    intros t B st. split; [apply Hscenario |]. split.
    + rewrite Hscenario. apply self_clearing_run.
    + intros cfg a b Hab. split.
      * apply scenario_self_clearing; assumption.
      * intros Hoff. unfold run_test. rewrite Hoff.
        apply hooks_then_body_self_clearing; assumption.
  - cbn zeta. split; [reflexivity |].
    intros t Ht. cbn in Ht.
    destruct Ht as [<- | [<- | [<- | []]]]; split; vm_compute; reflexivity.
Qed.

(** C9 as stated fails: on the simulated storefront, with the runner's
    isolation off, the first cart scenario passes alone, yet within the file
    it fails in its setup, on the product that the product suite left in
    local storage. *)
Lemma cart_scenarios_depend_on_what_ran_before :
  ~ (forall (B : Browser) (cfg : config) (st : state B),
       pass_fail (fst (run_spec cfg spec_file st)) =
       pass_fail (alone_outcomes cfg spec_file st)).
Proof.
  intros H.
  specialize (H Storefront.browser (mkConfig false) Storefront.fresh).
  vm_compute in H. discriminate H.
Qed.

(** C9, amended.  With the runner's test isolation in force, each of the
    eight scenarios of the file passes when it is run alone, preceded only
    by its own suite's setup, exactly when it passes within the whole file,
    on every browser and whatever state the browser was launched in.
    Without that isolation this still holds for the five scenarios of the
    login and product suites, by their own setup, on every browser that
    visiting the root and clearing cookies and local storage brings to one
    state; it does not hold for the three cart scenarios, which on the
    simulated storefront pass alone and do not pass within the file. *)
Theorem scenarios_independent_by_isolation_or_clearing :
  (forall (B : Browser) (cfg : config) (st st0 : state B),
      length (alone_outcomes cfg spec_file st0) = 8
      /\ (testIsolation cfg = true ->
          pass_fail (fst (run_spec cfg spec_file st)) =
          pass_fail (alone_outcomes cfg spec_file st0))
      /\ (resets_on_clear B ->
          firstn 5 (pass_fail (fst (run_spec cfg spec_file st))) =
          firstn 5 (pass_fail (alone_outcomes cfg spec_file st0))))
  /\ map snd
       (skipn 5 (pass_fail
                   (fst (@run_spec Storefront.browser (mkConfig false)
                           spec_file Storefront.fresh))))
     = [false; false; false]
  /\ map snd
       (skipn 5 (pass_fail
                   (@alone_outcomes Storefront.browser (mkConfig false)
                      spec_file Storefront.fresh)))
     = [true; true; true].
Proof.
  split; [| split; vm_compute; reflexivity].
  intros B cfg st st0. split; [reflexivity |]. split.
  - intros Hiso. apply run_spec_stable.
    intros s t a b _. rewrite (run_test_isolated cfg s t a b Hiso).
    reflexivity.
  - intros Hreset.
    rewrite (self_clearing_scenarios_independent cfg st st0 Hreset).
    reflexivity.
Qed.

(** ** The statements exercised on the simulated storefront *)

Lemma login_scenario_branches_on_username_witness :
  In "locked_out_user" users
  /\ (let s := snd (@run Storefront.browser
                      (scenario login_tests (login_test "locked_out_user"))
                      Storefront.fresh) in
      visible (query error_selector s) s = true
      /\ includes "locked out" (text_of (query error_selector s) s) = true)
  /\ In "problem_user" users
  /\ includes "inventory"
       (location (snd (@run Storefront.browser
                         (scenario login_tests (login_test "problem_user"))
                         Storefront.fresh))) = true.
Proof.
  assert (Hl : In "locked_out_user" users) by (simpl; auto).
  assert (Hp : In "problem_user" users) by (simpl; auto).
  split; [exact Hl |]. split.
  - destruct (login_scenario_branches_on_username "locked_out_user" Hl)
      as (_ & Hlocked & _).
    destruct (Hlocked eq_refl) as (_ & Hrun).
    apply (Hrun Storefront.browser Storefront.fresh).
    vm_compute. reflexivity.
  - split; [exact Hp |].
    destruct (login_scenario_branches_on_username "problem_user" Hp)
      as (_ & _ & Hother).
    assert (Hne : "problem_user" <> "locked_out_user") by discriminate.
    destruct (Hother Hne) as (_ & Hrun).
    apply (Hrun Storefront.browser Storefront.fresh).
    vm_compute. reflexivity.
Defined.

Lemma login_and_product_setups_clear_before_body_witness :
  let a := Storefront.fresh in
  let b := Storefront.mkSt Storefront.CartPage "" "" None
             (Some "standard_user") ["sauce-labs-backpack"] in
  In product_tests [login_tests; product_tests]
  /\ @agree_when_cleared Storefront.browser a b
  /\ testIsolation (mkConfig false) = false
  /\ setup_clears product_tests = true
  /\ fst (@run Storefront.browser (scenario product_tests adds_to_cart) a)
     = fst (@run Storefront.browser (scenario product_tests adds_to_cart) b)
  /\ fst (@run_test Storefront.browser (mkConfig false) product_tests
            adds_to_cart a)
     = fst (@run_test Storefront.browser (mkConfig false) product_tests
              adds_to_cart b).
Proof.
  intros a b.
  assert (Hin : In product_tests [login_tests; product_tests])
    by (simpl; auto).
  assert (Hab : @agree_when_cleared Storefront.browser a b) by reflexivity.
  assert (Hoff : testIsolation (mkConfig false) = false) by reflexivity.
  split; [exact Hin |]. split; [exact Hab |]. split; [exact Hoff |].
  destruct login_and_product_setups_clear_before_body as (Hsuites & _).
  destruct (Hsuites product_tests Hin) as (Hclears & _ & Hscenario).
  split; [exact Hclears |].
  destruct (Hscenario adds_to_cart Storefront.browser a) as (_ & _ & Hcross).
  destruct (Hcross (mkConfig false) a b Hab) as (Hrun & Htest).
  split; [exact Hrun | exact (Htest Hoff)].
Defined.

Lemma add_to_cart_badge_reads_one_after_click_witness :
  let s := snd (@run Storefront.browser
                  (scenario product_tests adds_to_cart) Storefront.fresh) in
  @run Storefront.browser (scenario product_tests adds_to_cart)
    Storefront.fresh = (Passed, s)
  /\ badge_text s = "1".
Proof.
  intros s.
  assert (Hrun : @run Storefront.browser (scenario product_tests adds_to_cart)
                   Storefront.fresh = (Passed, s))
    by (vm_compute; reflexivity).
  split; [exact Hrun |].
  destruct (add_to_cart_badge_reads_one_after_click
              Storefront.browser Storefront.fresh s Hrun)
    as (_ & _ & s1 & _ & _ & Hbadge).
  exact Hbadge.
Defined.

Lemma product_listing_holds_six_items_witness :
  let s := snd (@run Storefront.browser
                  (scenario product_tests displays_six_products)
                  Storefront.fresh) in
  @run Storefront.browser (scenario product_tests displays_six_products)
    Storefront.fresh = (Passed, s)
  /\ length (query_within (query ".inventory_list" s) ".inventory_item" s) = 6.
Proof.
  intros s.
  assert (Hrun : @run Storefront.browser
                   (scenario product_tests displays_six_products)
                   Storefront.fresh = (Passed, s))
    by (vm_compute; reflexivity).
  split; [exact Hrun |].
  destruct (product_listing_holds_six_items
              Storefront.browser Storefront.fresh s Hrun)
    as (_ & _ & _ & _ & Hlen).
  exact Hlen.
Defined.

Lemma cart_holds_one_item_and_removal_empties_it_witness :
  (let s := snd (@run Storefront.browser
                   (scenario shopping_cart_tests displays_cart_item)
                   Storefront.fresh) in
   @run Storefront.browser (scenario shopping_cart_tests displays_cart_item)
     Storefront.fresh = (Passed, s)
   /\ length (query ".cart_item" s) = 1)
  /\ (let s := snd (@run Storefront.browser
                      (scenario shopping_cart_tests removes_from_cart)
                      Storefront.fresh) in
      @run Storefront.browser (scenario shopping_cart_tests removes_from_cart)
        Storefront.fresh = (Passed, s)
      /\ length (query ".inventory_item_name" s) = 0).
Proof.
  split; intros s.
  - assert (Hrun : @run Storefront.browser
                     (scenario shopping_cart_tests displays_cart_item)
                     Storefront.fresh = (Passed, s))
      by (vm_compute; reflexivity).
    split; [exact Hrun |].
    destruct (cart_holds_one_item_and_removal_empties_it
                Storefront.browser Storefront.fresh s)
      as (_ & _ & _ & _ & Hone & _).
    destruct (Hone Hrun) as (_ & Hlen). exact Hlen.
  - assert (Hrun : @run Storefront.browser
                     (scenario shopping_cart_tests removes_from_cart)
                     Storefront.fresh = (Passed, s))
      by (vm_compute; reflexivity).
    split; [exact Hrun |].
    destruct (cart_holds_one_item_and_removal_empties_it
                Storefront.browser Storefront.fresh s)
      as (_ & _ & _ & _ & _ & Hnone).
    destruct (Hnone Hrun) as (s1 & _ & _ & Hlen). exact Hlen.
Defined.


Lemma scenarios_independent_by_isolation_or_clearing_witness :
  testIsolation default_config = true
  /\ resets_on_clear Storefront.browser
  /\ pass_fail (fst (@run_spec Storefront.browser default_config spec_file
                       Storefront.fresh))
     = pass_fail (@alone_outcomes Storefront.browser default_config spec_file
                    Storefront.fresh)
  /\ firstn 5 (pass_fail
                 (fst (@run_spec Storefront.browser (mkConfig false)
                         spec_file Storefront.fresh)))
     = firstn 5 (pass_fail
                   (@alone_outcomes Storefront.browser (mkConfig false)
                      spec_file Storefront.fresh)).
Proof.
  assert (Hiso : testIsolation default_config = true) by reflexivity.
  assert (Hreset : resets_on_clear Storefront.browser)
    by (intros s s'; reflexivity).
  split; [exact Hiso |]. split; [exact Hreset |].
  destruct scenarios_independent_by_isolation_or_clearing as (Hgen & _).
  split.
  - destruct (Hgen Storefront.browser default_config
                Storefront.fresh Storefront.fresh) as (_ & Hall & _).
    exact (Hall Hiso).
  - destruct (Hgen Storefront.browser (mkConfig false)
                Storefront.fresh Storefront.fresh) as (_ & _ & Hfive).
    exact (Hfive Hreset).
Defined.

Lemma login_performs_four_steps_without_judgment_witness :
  let s := snd (@run Storefront.browser
                  (queue (login "standard_user" "secret_sauce"))
                  Storefront.fresh) in
  @run Storefront.browser (queue (login "standard_user" "secret_sauce"))
    Storefront.fresh = (Passed, s)
  /\ exists s1 s2 s3 : Storefront.st,
       @navigate Storefront.browser root Storefront.fresh = Some s1
       /\ @query Storefront.browser "#user-name" s1 <> []
       /\ @type_into Storefront.browser
            (@query Storefront.browser "#user-name" s1) "standard_user" s1
          = Some s2
       /\ @query Storefront.browser "#password" s2 <> []
       /\ @type_into Storefront.browser
            (@query Storefront.browser "#password" s2) "secret_sauce" s2
          = Some s3
       /\ @query Storefront.browser "#login-button" s3 <> []
       /\ @click_on Storefront.browser
            (@query Storefront.browser "#login-button" s3) s3
          = Some s.
Proof.
  intros s.
  assert (Hrun : @run Storefront.browser
                   (queue (login "standard_user" "secret_sauce"))
                   Storefront.fresh = (Passed, s))
    by (vm_compute; reflexivity).
  split; [exact Hrun |].
  destruct (login_performs_four_steps_without_judgment
              "standard_user" "secret_sauce") as (_ & _ & _ & Hsem).
  destruct (Hsem Storefront.browser Storefront.fresh) as (_ & Hiff).
  apply (proj1 (Hiff s)). exact Hrun.
Defined.

(** * Further properties of the code *)

(** ** Failure behaviour of the login command *)

Section LoginFailures.

Context {B : Browser}.
Variables username password : string.

Ltac login_cases s :=
  rewrite login_queue; unfold run; cbn [drain step expects_absence];
  destruct (navigate root s) as [s1 |] eqn:Hnav;
  [ destruct (query "#user-name" s1) as [| e1 l1] eqn:Hq1;
    cbn [found is_empty andb negb];
    [ | destruct (type_into (e1 :: l1) username s1) as [s2 |] eqn:Ht1;
        [ destruct (query "#password" s2) as [| e2 l2] eqn:Hq2;
          cbn [found is_empty andb negb];
          [ | destruct (type_into (e2 :: l2) password s2) as [s3 |] eqn:Ht2;
              [ destruct (query "#login-button" s3) as [| e3 l3] eqn:Hq3;
                cbn [found is_empty andb negb];
                [ | destruct (click_on (e3 :: l3) s3) as [s4 |] eqn:Hc ]
              | ] ]
        | ] ]
  | ].

(** X1.  A run of the login command ends as element-not-found exactly when
    the page loaded and one of its three controls is missing at the moment
    it is looked up: the username field on the loaded page, the password
    field after the username was typed, or the login button after the
    password was typed.  The run stops in the state of that lookup, so
    nothing after the missing control is typed or clicked. *)
Theorem login_element_not_found_iff (s s' : state B) :
  run (queue (login username password)) s = (Failed ElementNotFound, s') <->
  exists s1,
    navigate root s = Some s1
    /\ ((query "#user-name" s1 = [] /\ s' = s1)
        \/ exists s2,
             query "#user-name" s1 <> []
             /\ type_into (query "#user-name" s1) username s1 = Some s2
             /\ ((query "#password" s2 = [] /\ s' = s2)
                 \/ (query "#password" s2 <> []
                     /\ type_into (query "#password" s2) password s2 = Some s'
                     /\ query "#login-button" s' = []))).
Proof.
  login_cases s.
  all: split; [ intros H; inversion H; subst | intros H ].
  all: try solve [ firstorder congruence ].
  - exists s1. split; [reflexivity |]. right. exists s'. rewrite Hq1.
    split; [discriminate |]. split; [exact Ht1 |]. left. auto.
  - exists s1. split; [reflexivity |]. right. exists s2. rewrite Hq1.
    split; [discriminate |]. split; [exact Ht1 |]. right. rewrite Hq2.
    split; [discriminate |]. auto.
Qed.

(** X2.  A run of the login command ends as a command error exactly when
    the root page does not load, or a control was found but typing into it
    or clicking it fails.  When the page does not load the browser state is
    unchanged; otherwise the run stops in the state before the action that
    failed. *)
Theorem login_command_failed_iff (s s' : state B) :
  run (queue (login username password)) s = (Failed CommandFailed, s') <->
  (navigate root s = None /\ s' = s)
  \/ exists s1,
       navigate root s = Some s1
       /\ query "#user-name" s1 <> []
       /\ ((type_into (query "#user-name" s1) username s1 = None /\ s' = s1)
           \/ exists s2,
                type_into (query "#user-name" s1) username s1 = Some s2
                /\ query "#password" s2 <> []
                /\ ((type_into (query "#password" s2) password s2 = None
                     /\ s' = s2)
                    \/ (type_into (query "#password" s2) password s2
                        = Some s'
                        /\ query "#login-button" s' <> []
                        /\ click_on (query "#login-button" s') s' = None))).
Proof.
  login_cases s.
  all: split; [ intros H; inversion H; subst | intros H ].
  all: try solve [ firstorder congruence ].
  - right. exists s1. split; [reflexivity |]. rewrite Hq1.
    split; [discriminate |]. right. exists s2. split; [exact Ht1 |].
    rewrite Hq2. split; [discriminate |]. right. split; [exact Ht2 |].
    rewrite Hq3. split; [discriminate | exact Hc].
  - right. exists s1. split; [reflexivity |]. rewrite Hq1.
    split; [discriminate |]. right. exists s'. split; [exact Ht1 |].
    rewrite Hq2. split; [discriminate |]. left. auto.
  - right. exists s'. split; [reflexivity |]. rewrite Hq1.
    split; [discriminate |]. left. auto.
Qed.

End LoginFailures.

(** ** Generating the login tests from an array *)

Lemma forEach_it_registers (xs : list string) (s : suite) :
  forEach xs (fun user => it (login_title user) (login_attempt user)) s =
  mkSuite (suite_title s) (hooks s) (tests s ++ map login_test xs).
Proof.
  unfold forEach. revert s.
  induction xs as [| x xs' IH]; intros s; cbn [fold_left map].
  - rewrite app_nil_r. destruct s; reflexivity.
  - rewrite IH. unfold it. cbn [suite_title hooks tests].
    rewrite <- app_assoc. reflexivity.
Qed.

(** X3.  Whatever array the generating loop of the login suite is given,
    it registers exactly one test per element, in the array's order and
    with repeated elements repeated, after the tests already registered;
    the suite's title and hooks are untouched.  In particular an empty
    array registers nothing. *)
Theorem login_tests_follow_the_array :
  forall (xs : list string) (s : suite),
    let s' :=
      forEach xs (fun user => it (login_title user) (login_attempt user)) s in
    suite_title s' = suite_title s
    /\ hooks s' = hooks s
    /\ tests s' = tests s ++ map login_test xs
    /\ length (tests s') = length (tests s) + length xs
    /\ forall (hook : Cy unit) (name : string),
         tests (describe name
                  [ beforeEach hook;
                    forEach xs
                      (fun user => it (login_title user) (login_attempt user)) ])
         = map login_test xs.
Proof.
  intros xs s s'. subst s'. rewrite forEach_it_registers.
  cbn [suite_title hooks tests].
  repeat split.
  - rewrite length_app, length_map. reflexivity.
  - intros hook name. unfold describe. cbn [fold_left].
    rewrite forEach_it_registers. reflexivity.
Qed.

Lemma append_left_injective (p u v : string) :
  (p ++ u)%string = (p ++ v)%string -> u = v.
Proof.
  induction p as [| a p' IH]; cbn; intros H.
  - exact H.
  - injection H as H. apply IH. exact H.
Qed.

Lemma login_title_injective (u v : string) :
  login_title u = login_title v -> u = v.
Proof. unfold login_title. apply append_left_injective. Qed.

(** X4.  The title template of the generated login tests tells usernames
    apart: two usernames give the same title only if they are the same, so
    an array without repeated usernames yields tests with pairwise distinct
    titles. *)
Theorem generated_titles_are_distinct :
  forall xs : list string,
    NoDup xs ->
    NoDup (map title (map login_test xs))
    /\ forall u v : string,
         title (login_test u) = title (login_test v) -> u = v.
Proof.
  intros xs Hnd. split.
  - rewrite map_map. cbn [title login_test].
    induction Hnd as [| x l Hnotin Hnd IH]; cbn [map].
    + constructor.
    + constructor; [| exact IH].
      intros Hin. apply in_map_iff in Hin.
      destruct Hin as (y & Heq & Hy).
      apply login_title_injective in Heq. subst y. exact (Hnotin Hy).
  - intros u v H. cbn [title login_test] in H.
    apply login_title_injective. exact H.
Qed.

Lemma generated_titles_are_distinct_witness :
  NoDup users /\ NoDup (map title (tests login_tests)).
Proof.
  assert (Hnd : NoDup users).
  { unfold users. repeat constructor; simpl; intuition discriminate. }
  split; [exact Hnd |].
  destruct (generated_titles_are_distinct users Hnd) as (Htitles & _).
  exact Htitles.
Defined.

(** ** The cart setup's own navigation *)

(** X5.  The setup of the cart suite visits the root and then calls login,
    which visits the root again before anything else.  On a browser where
    loading the root right after loading it changes nothing, dropping the
    setup's own visit changes neither the outcome nor the final state of any
    scenario run with that setup, whatever the test body and the starting
    state. *)
Theorem cart_setup_visit_is_redundant :
  forall (B : Browser),
    reload_idempotent B ->
    forall (t : test) (st : state B),
      hd_error (scenario shopping_cart_tests t) = Some (Visit root)
      /\ run (scenario shopping_cart_tests t) st =
         run (tl (scenario shopping_cart_tests t)) st.
Proof.
  intros B Hidem t st. rewrite scenario_cart, login_queue.
  cbn [app hd_error tl]. split; [reflexivity |].
  unfold run. cbn [drain step].
  destruct (navigate root st) as [s1 |] eqn:Hnav; [| reflexivity].
  rewrite (Hidem st s1 Hnav). reflexivity.
Qed.

Lemma cart_setup_visit_is_redundant_witness :
  reload_idempotent Storefront.browser
  /\ @run Storefront.browser
       (scenario shopping_cart_tests removes_from_cart) Storefront.fresh
     = @run Storefront.browser
         (tl (scenario shopping_cart_tests removes_from_cart))
         Storefront.fresh.
Proof.
  assert (Hidem : reload_idempotent Storefront.browser).
  { intros s s1 H. simpl in H. injection H as <-. reflexivity. }
  split; [exact Hidem |].
  destruct (cart_setup_visit_is_redundant Storefront.browser Hidem
              removes_from_cart Storefront.fresh) as (_ & Hrun).
  exact Hrun.
Defined.

(** ** Only two kinds of failure *)

Section WellChained.

Context {B : Browser}.
Hypothesis Hdep : dependable B.

Lemma found_kind (rest : list command) (els : list (element B))
  (s : state B) :
  match found (expects_absence rest) els s with
  | inl f => f <> CommandFailed
  | inr (subj1, _) => has_kind subj1 (queried rest)
  end.
Proof.
  unfold found, queried.
  destruct els as [| e l]; destruct (expects_absence rest); cbn;
    auto; discriminate.
Qed.

(** A step on a suitable subject does not fail as a command error, and
    yields a subject suitable for what follows. *)
Lemma step_well_chained (c : command) (rest : list command) (k : kind)
  (subj : subject B) (s : state B) :
  has_kind subj k ->
  well_chained k (c :: rest) = true ->
  match step c (expects_absence rest) subj s with
  | inl f => f <> CommandFailed
  | inr (subj1, _) => exists k1, has_kind subj1 k1 /\ well_chained k1 rest = true
  end.
Proof.
  destruct Hdep as (Hnav & Htype & Hclick).
  intros Hk Hwc. destruct c; cbn [well_chained] in Hwc; cbn [step].
  - destruct (navigate url s) eqn:E; [| destruct (Hnav url s E)].
    exists KNone. split; [exact I | exact Hwc].
  - exists KNone. split; [exact I | exact Hwc].
  - exists KNone. split; [exact I | exact Hwc].
  - pose proof (found_kind rest (query selector s) s) as Hf.
    destruct (found (expects_absence rest) (query selector s) s)
      as [f | [subj1 s1]]; [exact Hf |].
    exists (queried rest). auto.
  - apply andb_prop in Hwc. destruct Hwc as [Hel Hwc].
    destruct k; try discriminate Hel;
      destruct subj as [| els | u]; try contradiction.
    all: pose proof (found_kind rest (query_within els selector s) s) as Hf;
      destruct (found (expects_absence rest) (query_within els selector s) s)
        as [f | [subj1 s1]]; [exact Hf |];
      exists (queried rest); auto.
  - destruct k; try discriminate Hwc.
    destruct subj as [| els | u]; try contradiction.
    destruct (type_into els text s) eqn:E; [| destruct (Htype els text s Hk E)].
    exists KElems. auto.
  - destruct k; try discriminate Hwc.
    destruct subj as [| els | u]; try contradiction.
    destruct (click_on els s) eqn:E; [| destruct (Hclick els s Hk E)].
    exists KElems. auto.
  - exists KText. split; [exact I | exact Hwc].
  - apply andb_prop in Hwc. destruct Hwc as [Hap Hwc]. unfold assert.
    destruct c, k; try discriminate Hap;
      destruct subj as [| els | u]; try contradiction; cbn [holds];
      match goal with
      | |- context [if ?b then _ else _] => destruct b
      end; try discriminate; eauto.
  - apply andb_prop in Hwc. destruct Hwc as [Hap Hwc]. unfold assert.
    destruct c, k; try discriminate Hap;
      destruct subj as [| els | u]; try contradiction; cbn [holds];
      match goal with
      | |- context [if ?b then _ else _] => destruct b
      end; try discriminate; eauto.
Qed.

Lemma drain_well_chained (q : list command) (k : kind) (subj : subject B)
  (s : state B) :
  has_kind subj k ->
  well_chained k q = true ->
  fst (drain q subj s) <> Failed CommandFailed.
Proof.
  revert k subj s. induction q as [| c rest IH]; intros k subj s Hk Hwc.
  - cbn. discriminate.
  - pose proof (step_well_chained c rest k subj s Hk Hwc) as Hstep.
    cbn [drain].
    destruct (step c (expects_absence rest) subj s) as [f | [subj1 s1]].
    + cbn. congruence.
    + destruct Hstep as (k1 & Hk1 & Hwc1). exact (IH k1 subj1 s1 Hk1 Hwc1).
Qed.

End WellChained.

Lemma scenario_login_test_well_chained (user : string) :
  well_chained KNone (scenario login_tests (login_test user)) = true.
Proof.
  rewrite scenario_login_test.
  destruct (String.eqb user "locked_out_user"); reflexivity.
Qed.

(** X6.  Every command of every scenario of the file receives a subject it
    can work on; this holds for the login scenario generated for any
    username.  Hence on a browser whose pages always load and whose type
    and click actions succeed on an element that was found, no scenario ends
    in a command error: it passes, fails an assertion, or fails to find an
    element. *)
Theorem scenarios_fail_only_by_assertion_or_missing_element :
  forall (B : Browser),
    dependable B ->
    (forall (s : suite) (t : test) (st : state B),
        In s spec_file -> In t (tests s) ->
        well_chained KNone (scenario s t) = true
        /\ fst (run (scenario s t) st) <> Failed CommandFailed)
    /\ (forall (user : string) (st : state B),
          well_chained KNone (scenario login_tests (login_test user)) = true
          /\ fst (run (scenario login_tests (login_test user)) st)
             <> Failed CommandFailed).
Proof.
  intros B Hdep. split.
  - intros s t st Hs Ht.
    assert (Hwc : well_chained KNone (scenario s t) = true).
    { cbn in Hs.
      destruct Hs as [<- | [<- | [<- | []]]]; cbn in Ht;
        repeat match goal with
          | H : _ \/ _ |- _ => destruct H as [<- | H]
          | H : False |- _ => destruct H
          end; reflexivity. }
    split; [exact Hwc |].
    unfold run. apply (drain_well_chained Hdep _ KNone); [exact I | exact Hwc].
  - intros user st. split; [apply scenario_login_test_well_chained |].
    unfold run. apply (drain_well_chained Hdep _ KNone); [exact I |].
    apply scenario_login_test_well_chained.
Qed.

Lemma scenarios_fail_only_by_assertion_or_missing_element_witness :
  dependable FixedBadge.browser
  /\ fst (@run FixedBadge.browser
            (scenario shopping_cart_tests displays_cart_item) tt)
     <> Failed CommandFailed.
Proof.
  assert (Hdep : dependable FixedBadge.browser).
  { repeat split; intros; simpl; discriminate. }
  split; [exact Hdep |].
  destruct (scenarios_fail_only_by_assertion_or_missing_element
              FixedBadge.browser Hdep) as (Hfile & _).
  apply (Hfile shopping_cart_tests displays_cart_item tt).
  - simpl. auto.
  - simpl. auto.
Defined.

(** ** Setup and body *)

Lemma registered_bodies_start_a_chain (s : suite) (t : test) :
  In s spec_file -> In t (tests s) -> starts_chain (queue (fn t)) = true.
Proof.
  intros Hs Ht. cbn in Hs.
  destruct Hs as [<- | [<- | [<- | []]]]; cbn in Ht;
    repeat match goal with
      | H : _ \/ _ |- _ => destruct H as [<- | H]
      | H : False |- _ => destruct H
      end; reflexivity.
Qed.

(** X7.  For every test registered in the file, a setup that fails fails
    the test with the same failure and in the same browser state, no command
    of the body being run; a setup that passes hands the state it reached to
    the body, which alone decides the result.  The subject left by the last
    command of the setup never reaches the body. *)
Theorem setup_failure_is_the_test_failure :
  forall (B : Browser) (s : suite) (t : test) (st : state B),
    In s spec_file -> In t (tests s) ->
    (forall (f : failure) (s' : state B),
        run (setup s) st = (Failed f, s') ->
        run (scenario s t) st = (Failed f, s'))
    /\ (forall s1 : state B,
          run (setup s) st = (Passed, s1) ->
          run (scenario s t) st = run (queue (fn t)) s1).
Proof.
  intros B s t st Hs Ht.
  pose proof (registered_bodies_start_a_chain s t Hs Ht) as Hchain.
  unfold scenario. rewrite (run_app _ _ st Hchain).
  split.
  - intros f s' H. rewrite H. reflexivity.
  - intros s1 H. rewrite H. reflexivity.
Qed.

Lemma setup_failure_is_the_test_failure_witness :
  In shopping_cart_tests spec_file
  /\ In goes_to_checkout (tests shopping_cart_tests)
  /\ @run Storefront.browser (scenario shopping_cart_tests goes_to_checkout)
       Storefront.fresh
     = @run Storefront.browser (queue (fn goes_to_checkout))
         (snd (@run Storefront.browser (setup shopping_cart_tests)
                 Storefront.fresh)).
Proof.
  assert (Hs : In shopping_cart_tests spec_file) by (simpl; auto).
  assert (Ht : In goes_to_checkout (tests shopping_cart_tests))
    by (simpl; auto).
  split; [exact Hs |]. split; [exact Ht |].
  destruct (setup_failure_is_the_test_failure Storefront.browser
              shopping_cart_tests goes_to_checkout Storefront.fresh Hs Ht)
    as (_ & Hpass).
  apply Hpass. vm_compute. reflexivity.
Defined.

(** ** Verification steps only read *)




(** ** The product setup and the standard user's login scenario *)


(** ** The runner's isolation setting and the clearing suites *)

(** X10.  Because the setups of the login and product suites clear cookies
    and local storage themselves, the outcomes of their five scenarios do
    not depend on the runner's test-isolation setting nor on the state the
    browser was launched in, on every browser that visiting the root and
    clearing cookies and local storage brings to one state. *)
Theorem clearing_suites_ignore_the_isolation_setting :
  forall (B : Browser),
    resets_on_clear B ->
    forall (cfg cfg' : config) (st st' : state B),
      firstn 5 (fst (run_spec cfg spec_file st)) =
      firstn 5 (fst (run_spec cfg' spec_file st')).
Proof.
  intros B Hreset cfg cfg' st st'.
  assert (Hl : self_clearing login_tests) by (eexists; reflexivity).
  assert (Hp : self_clearing product_tests) by (eexists; reflexivity).
  destruct (first_five_reports cfg st) as [st1 ->].
  destruct (first_five_reports cfg' st') as [st1' ->].
  rewrite (run_tests_across cfg cfg' login_tests (tests login_tests) st st'
             (fun t a b => run_test_self_clearing cfg cfg' login_tests t a b
                             Hreset Hl)).
  rewrite (run_tests_across cfg cfg' product_tests (tests product_tests)
             st1 st1'
             (fun t a b => run_test_self_clearing cfg cfg' product_tests t a b
                             Hreset Hp)).
  reflexivity.
Qed.

Lemma clearing_suites_ignore_the_isolation_setting_witness :
  resets_on_clear Storefront.browser
  /\ firstn 5 (fst (@run_spec Storefront.browser (mkConfig true) spec_file
                      Storefront.fresh))
     = firstn 5 (fst (@run_spec Storefront.browser (mkConfig false) spec_file
                        Storefront.fresh)).
Proof.
  assert (Hreset : resets_on_clear Storefront.browser)
    by (intros s s'; reflexivity).
  split; [exact Hreset |].
  apply (clearing_suites_ignore_the_isolation_setting Storefront.browser
           Hreset).
Defined.

(** ** The cart setup when the product cannot be added *)

(** X11.  The cart setup looks up the add-to-cart control of the backpack
    right after logging in.  If that control is missing on the page login
    ends on, for instance because the product is already in the cart, every
    scenario run with the cart setup fails there as element-not-found, in
    the state login produced and before any command of its body. *)
Theorem cart_setup_fails_when_product_cannot_be_added :
  forall (B : Browser) (t : test) (st s1 : state B),
    run ([Visit root] ++ queue (login "standard_user" "secret_sauce")) st
    = (Passed, s1) ->
    query "#add-to-cart-sauce-labs-backpack" s1 = [] ->
    run (setup shopping_cart_tests) st = (Failed ElementNotFound, s1)
    /\ run (scenario shopping_cart_tests t) st = (Failed ElementNotFound, s1).
Proof.
  intros B t st s1 Hlogin Habsent.
  assert (Hsetup : run (setup shopping_cart_tests) st
                   = (Failed ElementNotFound, s1)).
  { rewrite setup_shopping_cart_tests, app_assoc.
    rewrite run_app by reflexivity. rewrite Hlogin.
    unfold run. cbn [drain step expects_absence]. rewrite Habsent.
    reflexivity. }
  split; [exact Hsetup |].
  unfold scenario. rewrite setup_shopping_cart_tests.
  rewrite (app_assoc [Visit root]), <- (app_assoc _ _ (queue (fn t))).
  rewrite run_app by reflexivity. rewrite Hlogin.
  unfold run. cbn [app drain step expects_absence]. rewrite Habsent.
  reflexivity.
Qed.

Lemma cart_setup_fails_when_product_cannot_be_added_witness :
  let st := Storefront.mkSt Storefront.AboutBlank "" "" None None
              ["sauce-labs-backpack"] in
  let s1 := snd (@run Storefront.browser
                   ([Visit root]
                    ++ queue (login "standard_user" "secret_sauce")) st) in
  @query Storefront.browser "#add-to-cart-sauce-labs-backpack" s1 = []
  /\ @run Storefront.browser
       (scenario shopping_cart_tests displays_cart_item) st
     = (Failed ElementNotFound, s1).
Proof.
  intros st s1.
  assert (Hlogin : @run Storefront.browser
                     ([Visit root]
                      ++ queue (login "standard_user" "secret_sauce")) st
                   = (Passed, s1))
    by (vm_compute; reflexivity).
  assert (Habsent : @query Storefront.browser
                      "#add-to-cart-sauce-labs-backpack" s1 = [])
    by (vm_compute; reflexivity).
  split; [exact Habsent |].
  destruct (cart_setup_fails_when_product_cannot_be_added Storefront.browser
              displays_cart_item st s1 Hlogin Habsent) as (_ & Hrun).
  exact Hrun.
Defined.
